(** * Ayurvedic diet planner: the nutrition calculator and the rule engine

    A shallow embedding of [backend/src/services/nutrition.js] and
    [backend/src/services/ruleEngine.js], followed by the properties of the
    plan generator that the specification states.

    Conventions of the embedding:
    - a JavaScript number is an exact rational ([Q]); a value that went
      through [Math.round] is an integer ([Z]).  [NaN] and the infinities are
      not represented.  The products that the meal packer compares its
      running total with ([targetCal * 1.1] and the like) are rounded to
      binary64 as the code computes them ([JS.mul64]), and so are the sums
      of protein, carbs and fats in [calculateMealMacros]; the other
      operations are exact;
    - a string is a [string] of bytes; letter case is that of the ASCII
      letters, white space is the ASCII white space;
    - an object property that may be missing is an [option]; the operators
      [||] and [??] are written out with the truthiness of the property's
      type (the empty string and [0] are falsy);
    - an object literal used as a lookup table is an association list over
      its own keys;
    - a [Set] is a [gset]; an array is a [list];
    - the clock that the code reads ([Date.now()], [new Date().getMonth()])
      is an explicit argument. *)

From Stdlib Require Import ZArith QArith Qround Qminmax Qabs Qpower String Ascii List Lia Lqa Bool.
From Stdlib Require Import DecimalString.
From stdpp Require Import base gmap strings.
Import ListNotations.

(** ** JavaScript primitives *)

Module JS.

Definition is_upper (c : ascii) : bool :=
  let n := nat_of_ascii c in (65 <=? n)%nat && (n <=? 90)%nat.

Definition is_lower (c : ascii) : bool :=
  let n := nat_of_ascii c in (97 <=? n)%nat && (n <=? 122)%nat.

Definition lower_char (c : ascii) : ascii :=
  if is_upper c then ascii_of_nat (nat_of_ascii c + 32) else c.

Definition upper_char (c : ascii) : ascii :=
  if is_lower c then ascii_of_nat (nat_of_ascii c - 32) else c.

Fixpoint map_chars (g : ascii -> ascii) (s : string) : string :=
  match s with
  | EmptyString => EmptyString
  | String c s' => String (g c) (map_chars g s')
  end.

(** [s.toLowerCase()], [s.toUpperCase()] *)
Definition toLowerCase (s : string) : string := map_chars lower_char s.
Definition toUpperCase (s : string) : string := map_chars upper_char s.

(** [s.startsWith(p)] *)
Definition startsWith (s p : string) : bool := String.prefix p s.

(** [s.includes(sub)] *)
Fixpoint includes (s sub : string) : bool :=
  String.prefix sub s ||
  match s with
  | EmptyString => false
  | String _ s' => includes s' sub
  end.

Definition is_space (c : ascii) : bool :=
  let n := nat_of_ascii c in
  ((9 <=? n)%nat && (n <=? 13)%nat) || (n =? 32)%nat.

Fixpoint trimStart (s : string) : string :=
  match s with
  | EmptyString => EmptyString
  | String c s' => if is_space c then trimStart s' else s
  end.

Fixpoint trimEnd (s : string) : string :=
  match s with
  | EmptyString => EmptyString
  | String c s' =>
      match trimEnd s' with
      | EmptyString => if is_space c then EmptyString else String c EmptyString
      | t => String c t
      end
  end.

(** [s.trim()] *)
Definition trim (s : string) : string := trimEnd (trimStart s).

(** [s.split(',')]: the pieces between commas; the empty string gives one
    empty piece. *)
Fixpoint split_acc (sep : ascii) (cur : string) (s : string) : list string :=
  match s with
  | EmptyString => [cur]
  | String c s' =>
      if Ascii.eqb c sep then cur :: split_acc sep EmptyString s'
      else split_acc sep (cur ++ String c EmptyString)%string s'
  end.

Definition split_comma (s : string) : list string := split_acc ","%char EmptyString s.

(** [a.includes(x)] on an array *)
Definition arr_includes (l : list string) (x : string) : bool :=
  bool_decide (x ∈ l).

(** Truthiness of a property *)
Definition truthyS (o : option string) : bool :=
  match o with
  | Some s => negb (String.eqb s EmptyString)
  | None => false
  end.

Definition truthyQ (o : option Q) : bool :=
  match o with
  | Some q => negb (Qeq_bool q 0%Q)
  | None => false
  end.

(** [a || b] where both are string properties *)
Definition orS (a b : option string) : option string :=
  if truthyS a then a else b.

(** [(a || '')] *)
Definition strOr (a : option string) : string :=
  match a with Some s => s | None => EmptyString end.

(** [a || d] for a string property and a literal default *)
Definition strOrLit (a : option string) (d : string) : string :=
  match a with
  | Some s => if String.eqb s EmptyString then d else s
  | None => d
  end.

(** [a || b] where both are number properties *)
Definition orQ (a b : option Q) : option Q :=
  if truthyQ a then a else b.

(** [Number(a || d)] for a number property and a literal default *)
Definition numOr (a : option Q) (d : Q) : Q :=
  match a with
  | Some q => if Qeq_bool q 0%Q then d else q
  | None => d
  end.

(** [a ?? d] *)
Definition nullish {A} (a : option A) (d : A) : A :=
  match a with Some x => x | None => d end.

(** [Math.round]: the nearest integer, a half rounded up. *)
Definition Math_round (q : Q) : Z := Qfloor (q + (1 # 2))%Q.

(** [Math.floor] *)
Definition Math_floor (q : Q) : Z := Qfloor q.

(** The nearest integer, a half going to the even neighbour *)
Definition round_half_even (q : Q) : Z :=
  let f := Qfloor q in
  match Qcompare (q - inject_Z f)%Q (1 # 2) with
  | Lt => f
  | Gt => (f + 1)%Z
  | Eq => if Z.even f then f else (f + 1)%Z
  end.

(** [floor(log2 q)] of a positive rational *)
Definition ilog2 (q : Q) : Z :=
  let e0 := (Z.log2 (Qnum q) - Z.log2 (Z.pos (Qden q)))%Z in
  if Qle_bool (2 ^ e0)%Q q then e0 else (e0 - 1)%Z.

(** The binary64 number nearest to a positive rational: a significand of 53
    bits, ties to even.  The exponent range is not bounded (no overflow to
    infinity, no subnormal numbers). *)
Definition to_double_pos (q : Q) : Q :=
  let e := (ilog2 q - 52)%Z in
  (inject_Z (round_half_even (q / 2 ^ e)%Q) * 2 ^ e)%Q.

(** The binary64 number nearest to a rational; a decimal literal of the
    source denotes [to_double] of its value. *)
Definition to_double (q : Q) : Q :=
  match Qcompare q 0%Q with
  | Eq => 0%Q
  | Gt => to_double_pos q
  | Lt => (- to_double_pos (- q))%Q
  end.

(** [x * y] on two binary64 numbers *)
Definition mul64 (x y : Q) : Q := to_double (x * y)%Q.

(** [String(n)] for an integer *)
Definition string_of_Z (z : Z) : string := NilZero.string_of_int (Z.to_int z).

(** [x.toFixed(1)]: sign, then the tenths of the absolute value rounded
    half up. *)
Definition toFixed1 (q : Q) : string :=
  let neg := match Qcompare q 0%Q with Lt => true | _ => false end in
  let n := Math_round (Qabs q * 10)%Q in
  ((if neg then "-" else "") ++ string_of_Z (n / 10)%Z ++ "." ++ string_of_Z (n mod 10)%Z)%string.

(** [parts.join(sep)] *)
Fixpoint join (sep : string) (parts : list string) : string :=
  match parts with
  | [] => EmptyString
  | [p] => p
  | p :: rest => (p ++ sep ++ join sep rest)%string
  end.

(** Lookup of an own key in an object literal *)
Fixpoint lookup_key {A} (tbl : list (string * A)) (k : string) : option A :=
  match tbl with
  | [] => None
  | (k', v) :: tbl' => if String.eqb k k' then Some v else lookup_key tbl' k
  end.

End JS.

(** ** The ambient clock *)

Record Clock := mkClock {
  clock_now : Z;        (* Date.now(), milliseconds *)
  clock_month0 : Z      (* new Date().getMonth(), 0..11 *)
}.

(** ** Data model *)

Record Preferences := mkPreferences {
  liked : option (list string);
  disliked : option (list string)
}.

Record Profile := mkProfile {
  dosha_result : option string;
  sex : option string;
  height_cm : option Q;
  weight_kg : option Q;
  age_years : option Q;
  dob : option Z;        (* Date.parse(dob) of a non-empty date string *)
  activity_level : option string;
  health_goals : option (list string);
  preferences : option Preferences;
  allergies : option (list string);
  medical_conditions : option (list string)
}.

Record Food := mkFood {
  food_id : option string;
  id : option string;
  _id : option string;   (* String(f._id) *)
  name : option string;
  dosha_impact : option string;
  dosha_tags : option string;
  tastes : option string;
  rasa : option string;
  qualities : option string;
  energy : option string;
  virya : option string;
  season : option string;
  calories_100g : option Q;
  calories_per_100g : option Q;
  calories : option Q;
  protein_100g : option Q;
  protein : option Q;
  carbs_100g : option Q;
  fat_100g : option Q;
  type : option string;
  notes : option string
}.

Record Macros := mkMacros {
  m_calories : Z;
  m_protein : Q;
  m_carbs : Q;
  m_fats : Q
}.

Record MacroTargets := mkMacroTargets {
  t_protein : Z;
  t_carbs : Z;
  t_fats : Z
}.

(** ** nutrition.js *)

Module Nutrition.
Import JS.
Local Open Scope Q_scope.

(** The age that [calculateBMR] uses. *)
Definition age_of (clk : Clock) (p : Profile) : Q :=
  match age_years p with
  | Some a => a
  | None =>
      match dob p with
      | Some t => inject_Z (Math_floor (inject_Z (clock_now clk - t) / inject_Z 31557600000))
      | None => 25
      end
  end.

Definition calculateBMR (clk : Clock) (p : Profile) : Q :=
  let sex := nullish (sex p) "M"%string in
  let height_cm := nullish (height_cm p) 170 in
  let weight_kg := nullish (weight_kg p) 70 in
  let age := age_of clk p in
  let s := if String.eqb sex "M" then 5 else -161 in
  (10 * weight_kg) + ((625 # 100) * height_cm) - (5 * age) + s.

Definition factors : list (string * Q) :=
  [ ("sedentary", 12 # 10); ("light", 1375 # 1000); ("moderate", 155 # 100);
    ("active", 1725 # 1000); ("very_active", 19 # 10) ]%string.

Definition activity_factor (p : Profile) : Q :=
  let activity_level := nullish (activity_level p) "moderate"%string in
  nullish (lookup_key factors activity_level) (155 # 100).

Definition calculateTDEE (clk : Clock) (p : Profile) : Z :=
  let bmr := calculateBMR clk p in
  Math_round (bmr * activity_factor p).

Definition calculateTargetCalories (clk : Clock) (p : Profile) : Z :=
  let tdee := calculateTDEE clk p in
  let goals := nullish (health_goals p) [] in
  if arr_includes goals "weight_loss" || arr_includes goals "Weight Loss" then
    Math_round (inject_Z tdee * (8 # 10))
  else if arr_includes goals "weight_gain" || arr_includes goals "Weight Gain" then
    Math_round (inject_Z tdee * (115 # 100))
  else if arr_includes goals "muscle_gain" then
    Math_round (inject_Z tdee * (11 # 10))
  else tdee.

Definition getMacroTargets (p : Profile) : MacroTargets :=
  let goals := nullish (health_goals p) [] in
  let dosha := strOrLit (dosha_result p) "Vata" in
  (if arr_includes goals "weight_loss" then mkMacroTargets 30 40 30
   else if arr_includes goals "muscle_gain" then mkMacroTargets 25 50 25
   else if includes dosha "Vata" then mkMacroTargets 20 50 30
   else if includes dosha "Pitta" then mkMacroTargets 20 55 25
   else if includes dosha "Kapha" then mkMacroTargets 25 45 30
   else mkMacroTargets 20 55 25)%Z.

Definition calculateFoodMacros (food : Food) (grams : Q) : Macros :=
  let scale := grams / 100 in
  {| m_calories := Math_round (numOr (calories_100g food) 0 * scale);
     m_protein := inject_Z (Math_round (numOr (protein_100g food) 0 * scale * 10)) / 10;
     m_carbs := inject_Z (Math_round (numOr (carbs_100g food) 0 * scale * 10)) / 10;
     m_fats := inject_Z (Math_round (numOr (fat_100g food) 0 * scale * 10)) / 10 |}.

Definition distributions (mealCount : nat) : option (list Q) :=
  match mealCount with
  | 3%nat => Some [30 # 100; 40 # 100; 30 # 100]
  | 4%nat => Some [25 # 100; 35 # 100; 10 # 100; 30 # 100]
  | 5%nat => Some [20 # 100; 30 # 100; 10 # 100; 30 # 100; 10 # 100]
  | _ => None
  end.

Definition distributeMealCalories (totalCalories : Q) (mealCount : nat) : list Z :=
  let dist := nullish (distributions mealCount) [30 # 100; 40 # 100; 30 # 100] in
  map (fun pct => Math_round (totalCalories * pct)) dist.

(** An element of the [items] array of [calculateMealMacros]:
    [{ food, grams }]; a missing [grams] takes the default 100 of
    [calculateFoodMacros]. *)
Record MealEntry := mkMealEntry {
  e_food : Food;
  e_grams : option Q
}.

(** [x + y] on two binary64 numbers *)
Definition add64 (x y : Q) : Q := to_double (x + y).

(** The reducer of [calculateMealMacros].  The calories are integers and add
    exactly; protein, carbs and fats are binary64 numbers and their sums are
    rounded: the tenths that [calculateFoodMacros] returns are read as the
    binary64 numbers nearest to them. *)
Definition add_entry (total : Macros) (item : MealEntry) : Macros :=
  let macros := calculateFoodMacros (e_food item) (nullish (e_grams item) 100) in
  {| m_calories := (m_calories total + m_calories macros)%Z;
     m_protein := add64 (m_protein total) (to_double (m_protein macros));
     m_carbs := add64 (m_carbs total) (to_double (m_carbs macros));
     m_fats := add64 (m_fats total) (to_double (m_fats macros)) |}.

Definition calculateMealMacros (items : list MealEntry) : Macros :=
  fold_left add_entry items
    {| m_calories := 0%Z; m_protein := 0; m_carbs := 0; m_fats := 0 |}.

End Nutrition.

(** ** ruleEngine.js *)

Record Reasons := mkReasons {
  sDosha : Q;
  sSeason : Q;
  sNut : Q;
  r_season : string
}.

(** An element of [scored]: [{ f, score, reasons }] *)
Record Scored := mkScored {
  s_f : Food;
  s_score : Q;
  s_reasons : Reasons
}.

(** An element of [pick.items]: [{ f, grams, portion, macros, why }] *)
Record PickItem := mkPickItem {
  p_f : Food;
  p_grams : Z;
  p_portion : string;
  p_macros : Macros;
  p_why : string
}.

(** The state of the packer's loops: [items], [kcal], [used] *)
Record Pick := mkPick {
  pick_items : list PickItem;
  pick_kcal : Z;
  pick_used : gset (option string)
}.

Record PlanItem := mkPlanItem {
  i_food_id : option string;
  i_name : option string;
  i_portion : string;
  i_grams : Z;
  i_macros : Macros;
  i_why : string
}.

Record Meal := mkMeal {
  meal_type : string;
  meal_items : list PlanItem;
  meal_total_calories : Z;
  meal_explanations : list string
}.

Record Plan := mkPlan {
  plan_season : string;
  plan_dosha_target : string;
  plan_target_calories : Q;
  plan_total_calories : Z;
  plan_macro_targets : MacroTargets;
  plan_meals : list Meal;
  plan_explanation_logs : list string
}.

(** The argument object of [buildPlan] *)
Record BuildArgs := mkBuildArgs {
  profile : Profile;
  foods : option (list Food);
  plan_type : option string;
  targetCalories : option Q
}.

Module RuleEngine.
Import JS Nutrition.
Local Open Scope Q_scope.

Definition inferDosha (p : Profile) : string := strOrLit (dosha_result p) "Vata".

Definition isContra (p : Profile) (food : Food) : bool :=
  let conditions := nullish (medical_conditions p) [] in
  if arr_includes conditions "diabetes"
     && startsWith (toLowerCase (strOr (food_id food))) "i" then true
  else if arr_includes conditions "hypertension"
          && includes (strOr (tastes food)) "salty" then true
  else false.

Definition getSeasonFromMonth (month : Z) : string :=
  if ((3 <=? month) && (month <=? 5))%Z then "spring"
  else if ((6 <=? month) && (month <=? 8))%Z then "monsoon"
  else if ((9 <=? month) && (month <=? 11))%Z then "autumn"
  else "winter".

(** [/balancing|tridosha/i.test(s)] *)
Definition test_balancing_tridosha (s : string) : bool :=
  includes (toLowerCase s) "balancing" || includes (toLowerCase s) "tridosha".

(** [/balancing/i.test(s)] *)
Definition test_balancing (s : string) : bool :=
  includes (toLowerCase s) "balancing".

Definition nonempty (s : string) : bool := negb (String.eqb s EmptyString).

(** [(food.dosha_impact || food.dosha_tags || '').toString()] *)
Definition impact_of (food : Food) : string :=
  strOr (orS (dosha_impact food) (dosha_tags food)).

(** [typeof x === 'string' ? x.split(',').map((s) => s.trim().toLowerCase()) : []] *)
Definition tag_list (x : option string) : list string :=
  match x with
  | Some s => map (fun t => toLowerCase (trim t)) (split_comma s)
  | None => []
  end.

(** The body of [rasas.forEach] *)
Definition rasa_step (userDosha : string) (score : Q) (rasa : string) : Q :=
  if String.eqb userDosha "Pitta" then
    let score := if arr_includes ["pungent"; "sour"; "salty"]%string rasa then score - 1 else score in
    if arr_includes ["sweet"; "bitter"; "astringent"]%string rasa then score + 1 else score
  else if String.eqb userDosha "Kapha" then
    let score := if arr_includes ["sweet"; "sour"; "salty"]%string rasa then score - 1 else score in
    if arr_includes ["pungent"; "bitter"; "astringent"]%string rasa then score + 1 else score
  else if String.eqb userDosha "Vata" then
    let score := if arr_includes ["sweet"; "sour"; "salty"]%string rasa then score + 1 else score in
    if arr_includes ["pungent"; "bitter"; "astringent"]%string rasa then score - 1 else score
  else score.

(** The body of [gunas.forEach] *)
Definition guna_step (userDosha : string) (score : Q) (guna : string) : Q :=
  if String.eqb userDosha "Vata" then
    let score := if arr_includes ["dry"; "light"]%string guna then score - 1 else score in
    if arr_includes ["heavy"; "unctuous"]%string guna then score + 1 else score
  else if String.eqb userDosha "Kapha" then
    let score := if arr_includes ["heavy"; "unctuous"]%string guna then score - 1 else score in
    if arr_includes ["light"; "dry"]%string guna then score + 1 else score
  else score.

(** The block under [// 4. Virya (energy)] *)
Definition virya_step (userDosha : string) (food : Food) (score : Q) : Q :=
  let virya := toLowerCase (strOr (orS (energy food) (virya food))) in
  if nonempty virya then
    let score := if String.eqb userDosha "Pitta" && String.eqb virya "heating" then score - 1 else score in
    let score := if String.eqb userDosha "Pitta" && String.eqb virya "cooling" then score + 1 else score in
    let score := if String.eqb userDosha "Vata" && String.eqb virya "cooling" then score - (1 # 2) else score in
    if String.eqb userDosha "Kapha" && String.eqb virya "cooling" then score - (1 # 2) else score
  else score.

(** The first two statements on [score]: the dosha-impact term *)
Definition impact_step (userDosha : string) (food : Food) (score : Q) : Q :=
  let impact := impact_of food in
  let score := if test_balancing_tridosha impact then score + 1 else score in
  if nonempty impact && includes impact userDosha then score - (1 # 2) else score.

Definition scoreDoshaComprehensive (userDosha : string) (food : Food) : Q :=
  let score := 0 in
  let score := impact_step userDosha food score in
  let rasas := tag_list (tastes food) in
  let score := fold_left (rasa_step userDosha) rasas score in
  let gunas := tag_list (qualities food) in
  let score := fold_left (guna_step userDosha) gunas score in
  virya_step userDosha food score.

Definition scoreSeasonMatch (season_now : string) (food : Food) : Q :=
  let s := toLowerCase (strOr (season food)) in
  if negb (nonempty s) then 0
  else if includes s "all" then 1 # 2
  else if includes s season_now then 1 # 2 else 0.

Definition scoreNutrition (p : Profile) (food : Food) : Q :=
  let goals := nullish (health_goals p) [] in
  let score := 0 in
  let protein := numOr (orQ (protein_100g food) (protein food)) 0 in
  let calories := numOr (orQ (calories_100g food) (calories food)) 0 in
  let score :=
    if arr_includes goals "weight_loss" || arr_includes goals "Weight Loss" then
      let score := if Qle_bool 10 protein then score + 1 else score in
      if negb (Qle_bool 150 calories) then score + (1 # 2) else score
    else score in
  let score :=
    if arr_includes goals "muscle_gain" || arr_includes goals "Weight Gain" then
      let score := if Qle_bool 15 protein then score + (3 # 2) else score in
      if negb (Qle_bool calories 200) then score + (1 # 2) else score
    else score in
  if Qle_bool 8 protein then score + (1 # 2) else score.

Definition inferFoodType (food : Food) : string :=
  let name := toLowerCase (strOr (name food)) in
  let notes := toLowerCase (strOr (notes food)) in
  let idU := toUpperCase (strOr (food_id food)) in
  if includes name "rice" || includes name "wheat" || includes name "millet" then "grain"
  else if includes name "dal" || includes name "bean" || includes name "lentil" then "legume"
  else if includes notes "vegetable" || startsWith idU "D" then "vegetable"
  else if includes notes "fruit" || startsWith idU "E" then "fruit"
  else if includes name "nut" || includes name "seed" then "nut"
  else if startsWith idU "K" then "dairy"
  else if startsWith idU "L" then "protein"
  else "other".

(** [s.charAt(0).toUpperCase() + s.slice(1)] *)
Definition capitalize (s : string) : string :=
  match s with
  | EmptyString => EmptyString
  | String c s' => String (upper_char c) s'
  end.

(** The separator of [parts.join], byte for byte as in the source file. *)
Definition separator : string :=
  String " " (String (ascii_of_nat 195) (String (ascii_of_nat 162)
    (String (ascii_of_nat 226) (String (ascii_of_nat 130) (String (ascii_of_nat 172)
    (String (ascii_of_nat 194) (String (ascii_of_nat 162) (String " " EmptyString)))))))).

Definition explainChoice (food : Food) (dosha : string) (score : Q) : string :=
  let doshaTags := impact_of food in
  let parts :=
    if test_balancing doshaTags then ["Tridoshic"%string]
    else if includes doshaTags dosha then [("May aggravate " ++ dosha)%string]
    else [("Balances " ++ dosha)%string] in
  let tastes := strOr (orS (tastes food) (rasa food)) in
  let parts := if nonempty tastes then parts ++ [("Tastes: " ++ tastes)%string] else parts in
  let energy := orS (energy food) (virya food) in
  let parts :=
    if truthyS energy then parts ++ [(capitalize (strOr energy) ++ " energy")%string]
    else parts in
  let parts := parts ++ [("Score: " ++ toFixed1 score)%string] in
  join separator parts.

(** *** The meal packer *)

Definition baseSizes : list (string * Q) :=
  [ ("breakfast", 120); ("lunch", 150); ("snack", 80); ("dinner", 130) ]%string.

(** [Number(f.calories_100g || f.calories_per_100g || 100)] *)
Definition kPer100_of (food : Food) : Q :=
  numOr (orQ (calories_100g food) (calories_per_100g food)) 100.

(** [baseSizes[mealType] || 120] *)
Definition base_of (mealType : string) : Q :=
  nullish (lookup_key baseSizes mealType) 120.

(** [Math.max(kPer100, 1)], the divisor of the portion formula *)
Definition divisor_of (food : Food) : Q := Qmax (kPer100_of food) 1.

Definition calculatePortionSize (food : Food) (remainingCal : Q) (mealType : string) : Z :=
  let base := base_of mealType in
  let calculated := Math_round ((remainingCal / divisor_of food) * 100) in
  Z.max 50 (Z.min calculated (Math_round (base * (15 # 10)))).

Definition mealPrefs : list (string * list string) :=
  [ ("breakfast", ["grain"; "fruit"; "dairy"; "nut"]);
    ("lunch", ["grain"; "legume"; "vegetable"; "protein"]);
    ("snack", ["fruit"; "nut"; "dairy"]);
    ("dinner", ["grain"; "legume"; "vegetable"; "protein"]) ]%string.

Definition maxItems_of (mealType : string) : nat :=
  if String.eqb mealType "snack" then 2%nat else 3%nat.

(** [f.food_id || f.name], the key of the [used] set *)
Definition used_key (f : Food) : option string := orS (food_id f) (name f).

(** [f.type || inferFoodType(f)] *)
Definition foodType_of (f : Food) : string :=
  if truthyS (type f) then strOr (type f) else inferFoodType f.

(** The literals [1.1], [1.15], [0.9] and [0.7] of the packer *)
Definition lit_1_1 : Q := to_double (11 # 10).
Definition lit_1_15 : Q := to_double (115 # 100).
Definition lit_0_9 : Q := to_double (9 # 10).
Definition lit_0_7 : Q := to_double (7 # 10).

Section Packer.
Variable targetCal : Q.
Variable mealType : string.
Variable dosha : string.

Definition preferred : list string := nullish (lookup_key mealPrefs mealType) [].

(** [items.length >= maxItems || kcal >= targetCal * 1.1], the [break]
    test at the head of both loops *)
Definition stop (st : Pick) : bool :=
  (maxItems_of mealType <=? length (pick_items st))%nat
  || Qle_bool (mul64 targetCal lit_1_1) (inject_Z (pick_kcal st)).

(** [grams] as computed in both loops *)
Definition grams_of (st : Pick) (f : Food) : Z :=
  calculatePortionSize f (targetCal - inject_Z (pick_kcal st)) mealType.

(** [k = Math.round((kPer100 * grams) / 100)] *)
Definition k_of (st : Pick) (f : Food) : Z :=
  Math_round ((kPer100_of f * inject_Z (grams_of st f)) / 100).

Definition item_of (st : Pick) (s : Scored) : PickItem :=
  let f := s_f s in
  let grams := grams_of st f in
  {| p_f := f;
     p_grams := grams;
     p_portion := (string_of_Z grams ++ "g")%string;
     p_macros := calculateFoodMacros f (inject_Z grams);
     p_why := explainChoice f dosha (s_score s) |}.

(** [items.push(...); kcal += k; used.add(...)] *)
Definition accept (st : Pick) (s : Scored) : Pick :=
  {| pick_items := pick_items st ++ [item_of st s];
     pick_kcal := (pick_kcal st + k_of st (s_f s))%Z;
     pick_used := {[ used_key (s_f s) ]} ∪ pick_used st |}.

(** [kcal + k <= targetCal * 1.15] *)
Definition under_ceiling (st : Pick) (f : Food) : bool :=
  Qle_bool (inject_Z (pick_kcal st + k_of st f)) (mul64 targetCal lit_1_15).

(** The body of the first loop after its [break] test *)
Definition pass1_body (st : Pick) (s : Scored) : Pick :=
  let f := s_f s in
  let foodType := foodType_of f in
  if bool_decide (used_key f ∈ pick_used st) then st
  else if negb (length preferred =? 0)%nat && negb (arr_includes preferred foodType) then st
  else if under_ceiling st f then accept st s
  else st.

Fixpoint pass1 (scored : list Scored) (st : Pick) : Pick :=
  match scored with
  | [] => st
  | s :: rest => if stop st then st else pass1 rest (pass1_body st s)
  end.

(** [kcal >= targetCal * 0.9], the [break] at the foot of the second loop *)
Definition early_stop (st : Pick) : bool :=
  Qle_bool (mul64 targetCal lit_0_9) (inject_Z (pick_kcal st)).

Fixpoint pass2 (scored : list Scored) (st : Pick) : Pick :=
  match scored with
  | [] => st
  | s :: rest =>
      if stop st then st
      else if bool_decide (used_key (s_f s) ∈ pick_used st) then pass2 rest st
      else
        let st' := accept st s in
        if early_stop st' then st' else pass2 rest st'
  end.

(** [items.length === 0 || kcal < targetCal * 0.7] *)
Definition needs_second_pass (st : Pick) : bool :=
  (length (pick_items st) =? 0)%nat
  || negb (Qle_bool (mul64 targetCal lit_0_7) (inject_Z (pick_kcal st))).

Definition pick_init : Pick :=
  {| pick_items := []; pick_kcal := 0%Z; pick_used := ∅ |}.

(** The returned object is [{ items, kcal }]; the [used] component of the
    result is the local set at the end of the call. *)
Definition pickFoodForMeal (scored : list Scored) : Pick :=
  let st := pass1 scored pick_init in
  if needs_second_pass st then pass2 scored st else st.

End Packer.

(** *** The plan assembler *)

(** [profile.preferences?.disliked || []] *)
Definition disliked_of (p : Profile) : list string :=
  match preferences p with
  | Some pr => nullish (disliked pr) []
  | None => []
  end.

Definition banned_of (p : Profile) : gset string :=
  list_to_set (map toLowerCase (disliked_of p)).

Definition allergies_of (p : Profile) : gset string :=
  list_to_set (map toLowerCase (nullish (allergies p) [])).

(** The predicate of [(foods || []).filter(...)] *)
Definition allowed (p : Profile) (f : Food) : bool :=
  negb (bool_decide (toLowerCase (strOr (name f)) ∈ banned_of p))
  && negb (bool_decide (toLowerCase (strOr (name f)) ∈ allergies_of p))
  && negb (isContra p f).

Definition allowedFoods (p : Profile) (fs : option (list Food)) : list Food :=
  List.filter (allowed p) (nullish fs []).

(** The weights [W] *)
Definition W_dosha : Q := 3.
Definition W_seasonal : Q := 1.
Definition W_nutrition : Q := 1.
Definition W_prefPenalty : Q := 2.

(** The function given to [allowedFoods.map] *)
Definition score_food (p : Profile) (dosha season_now : string) (f : Food) : Scored :=
  let sDosha := scoreDoshaComprehensive dosha f in
  let sSeason := scoreSeasonMatch season_now f in
  let sNut := scoreNutrition p f in
  let penalty :=
    if bool_decide (toLowerCase (strOr (name f)) ∈ banned_of p) then W_prefPenalty else 0 in
  let score := sDosha * W_dosha + sSeason * W_seasonal + sNut * W_nutrition - penalty in
  {| s_f := f; s_score := score;
     s_reasons := {| sDosha := sDosha; sSeason := sSeason; sNut := sNut; r_season := season_now |} |}.

(** [.sort((a, b) => b.score - a.score)]: a stable sort, the larger score
    first; [a] stays ahead of [b] unless [b.score - a.score > 0]. *)
Fixpoint insert_scored (a : Scored) (l : list Scored) : list Scored :=
  match l with
  | [] => [a]
  | b :: l' =>
      if Qle_bool (s_score b) (s_score a) then a :: b :: l'
      else b :: insert_scored a l'
  end.

Definition sort_scored (l : list Scored) : list Scored :=
  fold_right insert_scored [] l.

Definition mealTypes_of (plan_type : string) : list string :=
  if String.eqb plan_type "daily" then ["breakfast"; "lunch"; "snack"; "dinner"]%string
  else ["breakfast"; "lunch"; "dinner"]%string.

(** The function given to [pick.items.map] *)
Definition plan_item (it : PickItem) : PlanItem :=
  let f := p_f it in
  {| i_food_id := orS (orS (food_id f) (id f)) (if truthyS (_id f) then _id f else None);
     i_name := name f;
     i_portion := p_portion it;
     i_grams := p_grams it;
     i_macros := p_macros it;
     i_why := p_why it |}.

(** [items.reduce((sum, it) => sum + (it.macros?.calories || 0), 0)] *)
Definition sum_calories (items : list PlanItem) : Z :=
  fold_left (fun sum it => (sum + m_calories (i_macros it))%Z) items 0%Z.

(** The callback of [mealTypes.forEach], on the pair of [meals] and
    [totalCals] that it updates. *)
Definition meal_step (scored : list Scored) (mealCalories : list Z) (dosha : string)
    (acc : list Meal * Z) (mt_idx : string * nat) : list Meal * Z :=
  let '(meals, totalCals) := acc in
  let '(mt, idx) := mt_idx in
  let targetMealCal := nullish (mealCalories !! idx) 0%Z in
  let pick := pickFoodForMeal (inject_Z targetMealCal) mt dosha scored in
  let items := map plan_item (pick_items pick) in
  let mealTotal := sum_calories items in
  (meals ++ [ {| meal_type := mt; meal_items := items; meal_total_calories := mealTotal;
                 meal_explanations := List.filter nonempty (map i_why items) |} ],
   (totalCals + mealTotal)%Z).

(** The elements of an array with their indices, as [forEach] passes them *)
Definition indexed {A} (l : list A) : list (A * nat) := combine l (seq 0 (length l)).

Definition buildPlan (clk : Clock) (a : BuildArgs) : Plan :=
  let profile := profile a in
  let plan_type := nullish (plan_type a) "daily"%string in
  let dosha :=
    if truthyS (dosha_result profile) then strOr (dosha_result profile)
    else inferDosha profile in
  let month := (clock_month0 clk + 1)%Z in
  let season_now := getSeasonFromMonth month in
  let target :=
    match targetCalories a with
    | Some t => t
    | None => inject_Z (calculateTargetCalories clk profile)
    end in
  let allowedFoods := allowedFoods profile (foods a) in
  let scored := sort_scored (map (score_food profile dosha season_now) allowedFoods) in
  let macroTargets := getMacroTargets profile in
  let mealTypes := mealTypes_of plan_type in
  let mealCalories := distributeMealCalories target (length mealTypes) in
  let '(meals, totalCals) :=
    fold_left (meal_step scored mealCalories dosha) (indexed mealTypes) ([], 0%Z) in
  {| plan_season := season_now;
     plan_dosha_target := dosha;
     plan_target_calories := target;
     plan_total_calories := totalCals;
     plan_macro_targets := macroTargets;
     plan_meals := meals;
     plan_explanation_logs := [] |}.

End RuleEngine.

(** * Properties *)

(** ** Rounding *)

Section Rounding.
Import JS.

Lemma Qfloor_ge_iff (z : Z) (x : Q) : (z <= Qfloor x)%Z <-> (inject_Z z <= x)%Q.
Proof.
  split; intros H.
  - apply Qle_trans with (inject_Z (Qfloor x)); [| apply Qfloor_le].
    rewrite <- Zle_Qle. exact H.
  - rewrite <- (Qfloor_Z z). apply Qfloor_resp_le. exact H.
Qed.

Lemma Math_round_ge_iff (z : Z) (x : Q) :
  (z <= Math_round x)%Z <-> (inject_Z z - (1 # 2) <= x)%Q.
Proof.
  unfold Math_round. rewrite Qfloor_ge_iff. split; intros H; lra.
Qed.

Lemma Math_round_pos_iff (x : Q) : (0 < Math_round x)%Z <-> (1 # 2 <= x)%Q.
Proof.
  assert (E : (0 < Math_round x)%Z <-> (1 <= Math_round x)%Z) by lia.
  rewrite E, Math_round_ge_iff. split; intros H.
  - change (inject_Z 1) with 1%Q in H. lra.
  - change (inject_Z 1) with 1%Q. lra.
Qed.

(** Scaling an integer by a factor between 1/2 and 3/2 and rounding keeps
    its sign. *)
Lemma Math_round_scale_pos_iff (n : Z) (c : Q) :
  (1 # 2 <= c)%Q -> (c <= 3 # 2)%Q ->
  ((0 < Math_round (inject_Z n * c))%Z <-> (0 < n)%Z).
Proof.
  intros Hlo Hhi. rewrite Math_round_pos_iff. split; intros H.
  - destruct (Z_lt_le_dec 0 n) as [Hn | Hn]; [exact Hn | exfalso].
    assert (Hq : (inject_Z n <= 0)%Q) by (rewrite Zle_Qle in Hn; exact Hn).
    assert (inject_Z n * c <= 0)%Q by nra. lra.
  - assert (Hq : (1 <= inject_Z n)%Q).
    { change 1%Q with (inject_Z 1). rewrite <- Zle_Qle. lia. }
    nra.
Qed.

End Rounding.

(** ** The nutrition calculator *)

Section NutritionProps.
Import JS Nutrition.

Definition empty_profile : Profile :=
  {| dosha_result := None; sex := None; height_cm := None; weight_kg := None;
     age_years := None; dob := None; activity_level := None; health_goals := None;
     preferences := None; allergies := None; medical_conditions := None |}.

Definition with_goals (p : Profile) (goals : list string) : Profile :=
  {| dosha_result := dosha_result p; sex := sex p; height_cm := height_cm p;
     weight_kg := weight_kg p; age_years := age_years p; dob := dob p;
     activity_level := activity_level p; health_goals := Some goals;
     preferences := preferences p; allergies := allergies p;
     medical_conditions := medical_conditions p |}.

(** Every occurrence of the goal [old] replaced by [new] *)
Definition replace_goal (old new : string) (goals : list string) : list string :=
  map (fun g => if String.eqb g old then new else g) goals.

Definition epoch : Clock := {| clock_now := 0; clock_month0 := 0 |}.

(** A small, light, old woman; every field is inside the bounds of the
    request validator. *)
Definition frail_profile : Profile :=
  {| dosha_result := None; sex := Some "F"%string; height_cm := Some 50%Q;
     weight_kg := Some 20%Q; age_years := Some 120%Q; dob := None;
     activity_level := None; health_goals := None;
     preferences := None; allergies := None; medical_conditions := None |}.

Example frail_target : calculateTargetCalories epoch frail_profile = (-385)%Z.
Proof. vm_compute. reflexivity. Qed.

Example default_target : calculateTargetCalories epoch empty_profile = 2546%Z.
Proof. vm_compute. reflexivity. Qed.

(** C5, as stated, fails: the target of [frail_profile] is negative. *)
Lemma target_not_always_positive :
  ~ (forall clk p, (0 < calculateTargetCalories clk p)%Z).
Proof.
  intros H. specialize (H epoch frail_profile).
  rewrite frail_target in H. lia.
Qed.

Lemma tdee_pos_iff clk p :
  (0 < calculateTDEE clk p)%Z <-> (1 # 2 <= calculateBMR clk p * activity_factor p)%Q.
Proof. unfold calculateTDEE. apply Math_round_pos_iff. Qed.

(** C5 (amended): the calorie target is strictly positive exactly when the
    basal metabolic rate times the activity factor is at least one half,
    whatever the goals are. *)
Theorem target_positive_iff clk p :
  (0 < calculateTargetCalories clk p)%Z
  <-> (1 # 2 <= calculateBMR clk p * activity_factor p)%Q.
Proof.
  rewrite <- tdee_pos_iff. unfold calculateTargetCalories.
  repeat match goal with |- context [if ?b then _ else _] => destruct b end;
    try reflexivity; apply Math_round_scale_pos_iff; lra.
Qed.

(** Membership in a goal list after a replacement *)
Lemma includes_replace_new old new goals :
  arr_includes (replace_goal old new goals) new
  = arr_includes goals old || arr_includes goals new.
Proof.
  unfold arr_includes, replace_goal.
  apply eq_true_iff_eq.
  rewrite orb_true_iff, !bool_decide_eq_true, list_elem_of_fmap. split.
  - intros (g & Hx & Hg). destruct (String.eqb_spec g old) as [Heq | Hne].
    + left. rewrite <- Heq. exact Hg.
    + right. rewrite Hx. exact Hg.
  - intros [H | H].
    + exists old. rewrite String.eqb_refl. split; [reflexivity | exact H].
    + exists new. split; [| exact H]. destruct (new =? old)%string; reflexivity.
Qed.

Lemma includes_replace_other old new goals x :
  x <> old -> x <> new ->
  arr_includes (replace_goal old new goals) x = arr_includes goals x.
Proof.
  intros Ho Hn. unfold arr_includes, replace_goal.
  apply eq_true_iff_eq. rewrite !bool_decide_eq_true.
  rewrite list_elem_of_fmap. split.
  - intros (g & Hx & Hg). destruct (String.eqb_spec g old); congruence.
  - intros Hx. exists x. split; [| exact Hx].
    destruct (String.eqb_spec x old); congruence.
Qed.

Lemma includes_replace_old old new goals :
  old <> new -> arr_includes (replace_goal old new goals) old = false.
Proof.
  intros Hne. unfold arr_includes, replace_goal.
  apply bool_decide_eq_false. rewrite list_elem_of_fmap.
  intros (g & Hx & Hg). destruct (String.eqb_spec g old); congruence.
Qed.

(** The two spellings of the weight-loss goal are aliases. *)
Lemma weight_loss_alias clk p goals :
  calculateTargetCalories clk (with_goals p (replace_goal "weight_loss" "Weight Loss" goals))
  = calculateTargetCalories clk (with_goals p goals).
Proof.
  unfold calculateTargetCalories, calculateTDEE, calculateBMR, age_of, activity_factor.
  cbn [health_goals with_goals nullish sex height_cm weight_kg age_years dob activity_level].
  rewrite includes_replace_new, includes_replace_old by discriminate.
  rewrite !includes_replace_other by discriminate.
  rewrite orb_false_l. reflexivity.
Qed.

(** The two spellings of the weight-gain goal are aliases. *)
Lemma weight_gain_alias clk p goals :
  calculateTargetCalories clk (with_goals p (replace_goal "weight_gain" "Weight Gain" goals))
  = calculateTargetCalories clk (with_goals p goals).
Proof.
  unfold calculateTargetCalories, calculateTDEE, calculateBMR, age_of, activity_factor.
  cbn [health_goals with_goals nullish sex height_cm weight_kg age_years dob activity_level].
  rewrite includes_replace_new, includes_replace_old by discriminate.
  rewrite !includes_replace_other by discriminate.
  rewrite orb_false_l. reflexivity.
Qed.

(** C6: the title-case spelling of the muscle-gain goal is not honoured by
    [calculateTargetCalories]: with the goal list [["muscle_gain"]] the
    default profile gets the 10% surplus, with the replaced list
    [["Muscle Gain"]] it gets the maintenance value. *)
Theorem muscle_gain_alias_missing :
  replace_goal "muscle_gain" "Muscle Gain" ["muscle_gain"%string] = ["Muscle Gain"%string]
  /\ calculateTargetCalories epoch (with_goals empty_profile ["muscle_gain"%string]) = 2801%Z
  /\ calculateTargetCalories epoch (with_goals empty_profile ["Muscle Gain"%string]) = 2546%Z.
Proof. repeat split; vm_compute; reflexivity. Qed.

(** C9: the three percentages of [getMacroTargets] sum to 100. *)
Theorem macro_targets_sum_100 (p : Profile) :
  (t_protein (getMacroTargets p) + t_carbs (getMacroTargets p)
   + t_fats (getMacroTargets p) = 100)%Z.
Proof.
  unfold getMacroTargets.
  repeat match goal with |- context [if ?b then _ else _] => destruct b end;
    reflexivity.
Qed.

End NutritionProps.

(** ** Portion sizing *)

Section PortionProps.
Import JS Nutrition RuleEngine.

(** The cap [Math.round(base * 1.5)] of every meal type is at least the
    floor of 50 grams. *)
Lemma portion_cap_ge_50 (mealType : string) :
  (50 <= Math_round (base_of mealType * (15 # 10)))%Z.
Proof.
  unfold base_of, baseSizes, lookup_key, nullish.
  repeat match goal with |- context [if ?b then _ else _] => destruct b end;
    vm_compute; discriminate.
Qed.

Lemma base_of_other (mealType : string) :
  mealType <> "breakfast"%string -> mealType <> "lunch"%string ->
  mealType <> "snack"%string -> mealType <> "dinner"%string ->
  base_of mealType = 120%Q.
Proof.
  intros Hb Hl Hs Hd. unfold base_of, baseSizes, lookup_key, nullish.
  destruct (String.eqb_spec mealType "breakfast"); [contradiction |].
  destruct (String.eqb_spec mealType "lunch"); [contradiction |].
  destruct (String.eqb_spec mealType "snack"); [contradiction |].
  destruct (String.eqb_spec mealType "dinner"); [contradiction |].
  reflexivity.
Qed.

(** C10: [calculatePortionSize] returns an integer between 50 and
    [round(base * 1.5)], where [base] is 120, 150, 80, 130 for breakfast,
    lunch, snack, dinner and 120 for any other label; the divisor of the
    portion formula is at least 1, hence never zero. *)
Theorem portion_size_bounds (food : Food) (remainingCal : Q) (mealType : string) :
  (50 <= calculatePortionSize food remainingCal mealType
      <= Math_round (base_of mealType * (15 # 10)))%Z
  /\ base_of "breakfast" = 120%Q /\ base_of "lunch" = 150%Q
  /\ base_of "snack" = 80%Q /\ base_of "dinner" = 130%Q
  /\ (mealType <> "breakfast"%string -> mealType <> "lunch"%string ->
      mealType <> "snack"%string -> mealType <> "dinner"%string ->
      base_of mealType = 120%Q)
  /\ (1 <= divisor_of food)%Q
  /\ ~ (divisor_of food == 0)%Q.
Proof.
  assert (Hdiv : (1 <= divisor_of food)%Q) by (unfold divisor_of; apply Q.le_max_r).
  split; [| repeat split; try reflexivity; try exact Hdiv].
  - unfold calculatePortionSize. pose proof (portion_cap_ge_50 mealType). lia.
  - apply base_of_other.
  - intros H0. rewrite H0 in Hdiv. revert Hdiv. apply Qlt_not_le. reflexivity.
Qed.

End PortionProps.

(** ** The dosha score *)

Section DoshaScoreProps.
Import JS Nutrition RuleEngine.
Local Open Scope Q_scope.

Definition bare_food : Food :=
  {| food_id := None; id := None; _id := None; name := None;
     dosha_impact := None; dosha_tags := None; tastes := None; rasa := None;
     qualities := None; energy := None; virya := None; season := None;
     calories_100g := None; calories_per_100g := None; calories := None;
     protein_100g := None; protein := None; carbs_100g := None; fat_100g := None;
     type := None; notes := None |}.

(** A food that carries nothing but a dosha-impact tag string *)
Definition tagged_food (impact : string) : Food :=
  {| food_id := None; id := None; _id := None; name := None;
     dosha_impact := Some impact; dosha_tags := None; tastes := None; rasa := None;
     qualities := None; energy := None; virya := None; season := None;
     calories_100g := None; calories_per_100g := None; calories := None;
     protein_100g := None; protein := None; carbs_100g := None; fat_100g := None;
     type := None; notes := None |}.

(** The food [f] with its dosha-impact tags removed *)
Definition without_impact (f : Food) : Food :=
  {| food_id := food_id f; id := id f; _id := _id f; name := name f;
     dosha_impact := None; dosha_tags := None; tastes := tastes f; rasa := rasa f;
     qualities := qualities f; energy := energy f; virya := virya f; season := season f;
     calories_100g := calories_100g f; calories_per_100g := calories_per_100g f;
     calories := calories f; protein_100g := protein_100g f; protein := protein f;
     carbs_100g := carbs_100g f; fat_100g := fat_100g f; type := type f;
     notes := notes f |}.

(** The dosha-impact term in the words of the specification: +1 when the
    tags contain "Balancing" or "Tridoshic" in any letter case, -0.5 when
    they contain the user's dosha. *)
Definition spec_impact_term (userDosha : string) (f : Food) : Q :=
  let impact := impact_of f in
  (if includes (toLowerCase impact) "balancing" || includes (toLowerCase impact) "tridoshic"
   then 1 else 0)
  - (if includes impact userDosha then 1 # 2 else 0).

(** The dosha-impact term of the code: +1 when [/balancing|tridosha/i]
    matches, -0.5 when the tag string is non-empty and contains the user's
    dosha. *)
Definition impact_term (userDosha : string) (f : Food) : Q :=
  let impact := impact_of f in
  (if includes (toLowerCase impact) "balancing" || includes (toLowerCase impact) "tridosha"
   then 1 else 0)
  - (if nonempty impact && includes impact userDosha then 1 # 2 else 0).

Example tridoshic_score : scoreDoshaComprehensive "Vata" (tagged_food "Tridoshic") == 0.
Proof. vm_compute. reflexivity. Qed.

Example tridoshic_spec : spec_impact_term "Vata" (tagged_food "Tridoshic") == 1.
Proof. vm_compute. reflexivity. Qed.

Example tridosha_score : scoreDoshaComprehensive "Vata" (tagged_food "tridosha") == 1.
Proof. vm_compute. reflexivity. Qed.

(** C7, as stated, fails: a food tagged "Tridoshic" and nothing else
    scores 0 for a Vata user, where the claim gives it +1 over the same
    food without tags. *)
Lemma tridoshic_not_rewarded :
  ~ (forall userDosha f,
       scoreDoshaComprehensive userDosha f
       == scoreDoshaComprehensive userDosha (without_impact f)
          + spec_impact_term userDosha f).
Proof.
  intros H. specialize (H "Vata"%string (tagged_food "Tridoshic")).
  rewrite tridoshic_score, tridoshic_spec in H. discriminate H.
Qed.

Lemma fold_left_shift {A} (step : Q -> A -> Q) (l : list A) :
  (forall s a, step s a == s + step 0 a) ->
  forall s, fold_left step l s == s + fold_left step l 0.
Proof.
  intros Hstep. induction l as [| a l IH]; intros s; cbn [fold_left].
  - ring.
  - rewrite (IH (step s a)), (IH (step 0 a)), (Hstep s a). ring.
Qed.

Lemma rasa_step_shift d s r : rasa_step d s r == s + rasa_step d 0 r.
Proof.
  unfold rasa_step.
  repeat match goal with |- context [if ?b then _ else _] => destruct b end; ring.
Qed.

Lemma guna_step_shift d s g : guna_step d s g == s + guna_step d 0 g.
Proof.
  unfold guna_step.
  repeat match goal with |- context [if ?b then _ else _] => destruct b end; ring.
Qed.

Lemma virya_step_shift d f s : virya_step d f s == s + virya_step d f 0.
Proof.
  unfold virya_step. cbv zeta.
  repeat match goal with |- context [if ?b then _ else _] => destruct b end; ring.
Qed.

Lemma impact_step_term d f s : impact_step d f s == s + impact_term d f.
Proof.
  unfold impact_step, impact_term, test_balancing_tridosha. cbv zeta.
  repeat match goal with |- context [if ?b then _ else _] => destruct b end; ring.
Qed.

(** The score is the sum of its four terms. *)
Lemma scoreDosha_terms d f :
  scoreDoshaComprehensive d f
  == impact_term d f
     + fold_left (rasa_step d) (tag_list (tastes f)) 0
     + fold_left (guna_step d) (tag_list (qualities f)) 0
     + virya_step d f 0.
Proof.
  unfold scoreDoshaComprehensive. cbv zeta.
  rewrite virya_step_shift.
  rewrite (fold_left_shift (guna_step d) _ (guna_step_shift d)).
  rewrite (fold_left_shift (rasa_step d) _ (rasa_step_shift d)).
  rewrite impact_step_term. ring.
Qed.

Lemma impact_term_without d f : impact_term d (without_impact f) == 0.
Proof. reflexivity. Qed.

(** C7 (amended): the tag string of a food contributes to its dosha score
    exactly +1 when it contains "balancing" or "tridosha" in any letter
    case (and nothing otherwise), and exactly -0.5 more when it is
    non-empty and contains the user's dosha literal: the score of the food
    is the score of the same food without its tags plus these two
    amounts. *)
Theorem dosha_impact_term (userDosha : string) (f : Food) :
  scoreDoshaComprehensive userDosha f
  == scoreDoshaComprehensive userDosha (without_impact f)
     + (if includes (toLowerCase (impact_of f)) "balancing"
           || includes (toLowerCase (impact_of f)) "tridosha"
        then 1 else 0)
     - (if nonempty (impact_of f) && includes (impact_of f) userDosha then 1 # 2 else 0).
Proof.
  rewrite (scoreDosha_terms userDosha f), (scoreDosha_terms userDosha (without_impact f)).
  rewrite impact_term_without.
  change (tastes (without_impact f)) with (tastes f).
  change (qualities (without_impact f)) with (qualities f).
  change (virya_step userDosha (without_impact f) 0) with (virya_step userDosha f 0).
  unfold impact_term. cbv zeta. ring.
Qed.

End DoshaScoreProps.


(** ** Rounding to binary64 *)

Section Doubles.
Import JS.
Local Open Scope Q_scope.

Lemma pow2_pos (e : Z) : 0 < 2 ^ e.
Proof. apply Qpower_0_lt. reflexivity. Qed.

Lemma Qdiv_le_cross (A B N D : Q) :
  0 < B -> 0 < D -> 0 <= A -> A <= N -> D <= B -> A / B <= N / D.
Proof.
  intros HB HD HA HAN HDB.
  apply Qle_shift_div_l; [exact HD |].
  assert (E : A / B * D == A * D / B) by (field; lra).
  rewrite E. apply Qle_shift_div_r; [exact HB |]. nra.
Qed.

Lemma ilog2_le (q : Q) : 0 < q -> 2 ^ ilog2 q <= q.
Proof.
  intros Hq. unfold ilog2.
  set (a := Z.log2 (Qnum q)). set (b := Z.log2 (Z.pos (Qden q))).
  destruct (Qle_bool (2 ^ (a - b)) q) eqn:E; [apply Qle_bool_iff, E |].
  assert (Hn : (0 < Qnum q)%Z).
  { destruct q as [n d]. unfold Qlt in Hq. cbn in *. lia. }
  assert (Ha : (0 <= a)%Z) by apply Z.log2_nonneg.
  assert (Hb : (0 <= b)%Z) by apply Z.log2_nonneg.
  destruct (Z.log2_spec (Qnum q) Hn) as [Hlo _]. fold a in Hlo.
  destruct (Z.log2_spec (Z.pos (Qden q)) eq_refl) as [_ Hhi]. fold b in Hhi.
  replace (a - b - 1)%Z with (a - Z.succ b)%Z by lia.
  rewrite Qpower_minus by discriminate.
  change 2 with (inject_Z 2). rewrite <- !Zpower_Qpower by lia.
  assert (Eq : q == inject_Z (Qnum q) / inject_Z (Z.pos (Qden q))).
  { rewrite <- Qmake_Qdiv. destruct q; reflexivity. }
  apply Qle_trans with (inject_Z (Qnum q) / inject_Z (Z.pos (Qden q)));
    [| apply Qle_lteq; right; symmetry; exact Eq].
  apply Qdiv_le_cross.
  - change 0 with (inject_Z 0). rewrite <- Zlt_Qlt. apply Z.pow_pos_nonneg; lia.
  - reflexivity.
  - change 0 with (inject_Z 0). rewrite <- Zle_Qle. apply Z.pow_nonneg. lia.
  - rewrite <- Zle_Qle. exact Hlo.
  - rewrite <- Zle_Qle. lia.
Qed.

Lemma round_half_even_ge (q : Q) : (Qfloor q <= round_half_even q)%Z.
Proof. unfold round_half_even. destruct (Qcompare _ _); [destruct (Z.even _) | |]; lia. Qed.

Lemma to_double_pos_positive (q : Q) : 0 < q -> 0 < to_double_pos q.
Proof.
  intros Hq. unfold to_double_pos. cbv zeta.
  set (e := (ilog2 q - 52)%Z).
  assert (He : 2 ^ e <= q).
  { apply Qle_trans with (2 ^ ilog2 q); [| apply ilog2_le, Hq].
    apply Qpower_le_compat_l; [unfold e; lia | discriminate]. }
  pose proof (pow2_pos e) as Hp.
  assert (H1 : 1 <= q / 2 ^ e) by (apply Qle_shift_div_l; [exact Hp | lra]).
  assert (Hf : (1 <= Qfloor (q / 2 ^ e))%Z).
  { rewrite <- (Qfloor_Z 1). apply Qfloor_resp_le. exact H1. }
  pose proof (round_half_even_ge (q / 2 ^ e)) as Hr.
  assert (Hm : 1 <= inject_Z (round_half_even (q / 2 ^ e))).
  { change 1 with (inject_Z 1). rewrite <- Zle_Qle. lia. }
  nra.
Qed.

Lemma to_double_positive (q : Q) : 0 < q -> 0 < to_double q.
Proof.
  intros Hq. unfold to_double.
  assert (E : (q ?= 0) = Gt) by (apply Qgt_alt; exact Hq).
  rewrite E. apply to_double_pos_positive, Hq.
Qed.

Lemma mul64_positive (x y : Q) : 0 < x -> 0 < y -> 0 < mul64 x y.
Proof. intros Hx Hy. apply to_double_positive. nra. Qed.

End Doubles.


(** ** The meal packer *)

Section PackerProps.
Import JS Nutrition RuleEngine.
Local Open Scope Q_scope.

Variable targetCal : Q.
Variable mealType : string.
Variable dosha : string.

Local Abbreviation stop := (stop targetCal mealType).
Local Abbreviation accept := (accept targetCal mealType dosha).
Local Abbreviation item_of := (item_of targetCal mealType dosha).
Local Abbreviation pass1_body := (pass1_body targetCal mealType dosha).
Local Abbreviation pass1 := (pass1 targetCal mealType dosha).
Local Abbreviation pass2 := (pass2 targetCal mealType dosha).
Local Abbreviation k_of := (k_of targetCal mealType).
Local Abbreviation pickFoodForMeal := (pickFoodForMeal targetCal mealType dosha).

(** The [break] test in words *)
Definition stop_reached (st : Pick) : Prop :=
  (maxItems_of mealType <= length (pick_items st))%nat
  \/ mul64 targetCal lit_1_1 <= inject_Z (pick_kcal st).

Lemma stop_true_iff st : stop st = true <-> stop_reached st.
Proof.
  unfold RuleEngine.stop, stop_reached.
  rewrite orb_true_iff, Nat.leb_le, Qle_bool_iff. reflexivity.
Qed.

Lemma stop_false_iff st : stop st = false <-> ~ stop_reached st.
Proof. rewrite <- stop_true_iff. destruct (stop st); split; congruence. Qed.

Lemma Qle_bool_false_iff x y : Qle_bool x y = false <-> y < x.
Proof.
  rewrite <- not_true_iff_false, Qle_bool_iff. split.
  - apply Qnot_le_lt.
  - apply Qlt_not_le.
Qed.

Lemma needs_second_pass_iff st :
  needs_second_pass targetCal st = true
  <-> length (pick_items st) = 0%nat \/ inject_Z (pick_kcal st) < mul64 targetCal lit_0_7.
Proof.
  unfold needs_second_pass.
  rewrite orb_true_iff, Nat.eqb_eq, negb_true_iff, Qle_bool_false_iff. reflexivity.
Qed.

Lemma pass1_stops scored st : stop st = true -> pass1 scored st = st.
Proof. intros H. destruct scored; cbn [RuleEngine.pass1]; [| rewrite H]; reflexivity. Qed.

Lemma pass2_stops scored st : stop st = true -> pass2 scored st = st.
Proof. intros H. destruct scored; cbn [RuleEngine.pass2]; [| rewrite H]; reflexivity. Qed.

Lemma accept_length st s :
  length (pick_items (accept st s)) = S (length (pick_items st)).
Proof. cbn. rewrite length_app. cbn. lia. Qed.

(** The first loop's body either leaves the state alone or accepts the food,
    and accepts only an unused food of a preferred type under the ceiling. *)
Lemma pass1_body_cases st s :
  pass1_body st s = st
  \/ (pass1_body st s = accept st s
      /\ (used_key (s_f s) ∉ pick_used st)
      /\ inject_Z (pick_kcal st + k_of st (s_f s)) <= mul64 targetCal lit_1_15).
Proof.
  unfold RuleEngine.pass1_body. cbv zeta.
  destruct (bool_decide (used_key (s_f s) ∈ pick_used st)) eqn:Hu; [left; reflexivity |].
  destruct (negb _ && negb _); [left; reflexivity |].
  destruct (under_ceiling targetCal mealType st (s_f s)) eqn:Hc; [| left; reflexivity].
  right. split; [reflexivity |]. split.
  - apply bool_decide_eq_false in Hu. exact Hu.
  - unfold under_ceiling in Hc. apply Qle_bool_iff in Hc. exact Hc.
Qed.

Lemma pass1_body_accepts st s :
  pick_items (pass1_body st s) <> pick_items st ->
  pass1_body st s = accept st s
  /\ inject_Z (pick_kcal st + k_of st (s_f s)) <= mul64 targetCal lit_1_15.
Proof.
  intros Hne. destruct (pass1_body_cases st s) as [E | (E & _ & Hc)].
  - rewrite E in Hne. contradiction.
  - split; assumption.
Qed.

(** The item cap is an invariant of both loops. *)
Definition within_cap (st : Pick) : Prop :=
  (length (pick_items st) <= maxItems_of mealType)%nat.

Lemma accept_within_cap st s : stop st = false -> within_cap (accept st s).
Proof.
  intros H. unfold within_cap. rewrite accept_length.
  unfold RuleEngine.stop in H. apply orb_false_iff in H as [H _].
  apply Nat.leb_gt in H. lia.
Qed.

Lemma pass1_within_cap scored : forall st, within_cap st -> within_cap (pass1 scored st).
Proof.
  induction scored as [| s rest IH]; intros st Hst; cbn [RuleEngine.pass1]; [exact Hst |].
  destruct (stop st) eqn:Hs; [exact Hst |].
  apply IH. destruct (pass1_body_cases st s) as [E | (E & _)]; rewrite E.
  - exact Hst.
  - apply accept_within_cap. exact Hs.
Qed.

Lemma pass2_within_cap scored : forall st, within_cap st -> within_cap (pass2 scored st).
Proof.
  induction scored as [| s rest IH]; intros st Hst; cbn [RuleEngine.pass2]; [exact Hst |].
  destruct (stop st) eqn:Hs; [exact Hst |].
  destruct (bool_decide _); [apply IH; exact Hst |].
  cbv zeta. pose proof (accept_within_cap st s Hs) as Hc.
  destruct (early_stop _ _); [exact Hc | apply IH; exact Hc].
Qed.

(** Once the first loop holds an item, its running total is under the
    ceiling. *)
Definition under_ceiling_inv (st : Pick) : Prop :=
  pick_items st <> [] -> inject_Z (pick_kcal st) <= mul64 targetCal lit_1_15.

Lemma pass1_under_ceiling scored :
  forall st, under_ceiling_inv st -> under_ceiling_inv (pass1 scored st).
Proof.
  induction scored as [| s rest IH]; intros st Hst; cbn [RuleEngine.pass1]; [exact Hst |].
  destruct (stop st); [exact Hst |].
  apply IH. destruct (pass1_body_cases st s) as [E | (E & _ & Hc)]; rewrite E.
  - exact Hst.
  - intros _. exact Hc.
Qed.

(** What an acceptance does: [items.push(...)], [kcal += k], [used.add(...)] *)
Lemma accept_adds st s :
  pick_items (accept st s) = pick_items st ++ [item_of st s]
  /\ p_f (item_of st s) = s_f s
  /\ p_grams (item_of st s)
     = calculatePortionSize (s_f s) (targetCal - inject_Z (pick_kcal st)) mealType
  /\ pick_kcal (accept st s) = (pick_kcal st + k_of st (s_f s))%Z
  /\ pick_used (accept st s) = {[ used_key (s_f s) ]} ∪ pick_used st.
Proof. repeat split. Qed.

(** The three tests that a food passes to be accepted in the first pass *)
Definition acceptable (st : Pick) (s : Scored) : Prop :=
  (used_key (s_f s) ∉ pick_used st)
  /\ (preferred mealType = [] \/ In (foodType_of (s_f s)) (preferred mealType))
  /\ inject_Z (pick_kcal st + k_of st (s_f s)) <= mul64 targetCal lit_1_15.

Lemma pass1_body_spec st s :
  (acceptable st s -> pass1_body st s = accept st s)
  /\ (~ acceptable st s -> pass1_body st s = st).
Proof.
  unfold acceptable, RuleEngine.pass1_body. cbv zeta.
  destruct (bool_decide (used_key (s_f s) ∈ pick_used st)) eqn:Hu.
  { apply bool_decide_eq_true in Hu. split; [intros (H & _); contradiction | reflexivity]. }
  apply bool_decide_eq_false in Hu.
  destruct (negb (length (preferred mealType) =? 0)%nat
            && negb (arr_includes (preferred mealType) (foodType_of (s_f s)))) eqn:Hp.
  { apply andb_true_iff in Hp as [Hlen Hin]. apply negb_true_iff in Hlen, Hin.
    apply Nat.eqb_neq in Hlen. apply bool_decide_eq_false in Hin.
    split; [| reflexivity]. intros (_ & [Hnil | Hmem] & _).
    - rewrite Hnil in Hlen. contradiction.
    - exfalso. apply Hin, list_elem_of_In, Hmem. }
  assert (Hpref : preferred mealType = [] \/ In (foodType_of (s_f s)) (preferred mealType)).
  { apply andb_false_iff in Hp as [Hp | Hp]; apply negb_false_iff in Hp.
    - left. apply Nat.eqb_eq in Hp. destruct (preferred mealType); [reflexivity | discriminate].
    - right. apply bool_decide_eq_true in Hp. apply list_elem_of_In. exact Hp. }
  destruct (under_ceiling targetCal mealType st (s_f s)) eqn:Hc; unfold under_ceiling in Hc.
  - split; [reflexivity |]. intros Hn. exfalso. apply Hn.
    apply Qle_bool_iff in Hc. auto.
  - split; [| reflexivity]. intros (_ & _ & Hle).
    apply Qle_bool_iff in Hle. rewrite Hle in Hc. discriminate Hc.
Qed.

(** C8 (amended): the two passes of the meal packer, with the thresholds as
    the code computes them, the binary64 products of the target with 1.15,
    1.1, 0.7 and 0.9.  An acceptance appends the food with its portion, adds
    its portion calories to the running total and marks it used.  The first
    pass accepts a food exactly when it is unused, of a preferred type and
    the running total plus its portion calories is at most the product with
    1.15; it stops once the item cap (2 for snack, 3 otherwise) is reached or
    the running total is at least the product with 1.1.  The second pass runs
    exactly when the first left no item or a total below the product with
    0.7, and it accepts every unused food without the ceiling test until the
    cap, the product with 1.1, or the product with 0.9 after an addition. *)
Theorem meal_packer_passes :
  (* the cap *)
  (maxItems_of "snack" = 2%nat
   /\ (mealType <> "snack"%string -> maxItems_of mealType = 3%nat)
   /\ forall scored, (length (pick_items (pickFoodForMeal scored)) <= maxItems_of mealType)%nat)
  (* what an acceptance does *)
  /\ (forall st s,
        pick_items (accept st s) = pick_items st ++ [item_of st s]
        /\ p_f (item_of st s) = s_f s
        /\ p_grams (item_of st s)
           = calculatePortionSize (s_f s) (targetCal - inject_Z (pick_kcal st)) mealType
        /\ pick_kcal (accept st s) = (pick_kcal st + k_of st (s_f s))%Z
        /\ pick_used (accept st s) = {[ used_key (s_f s) ]} ∪ pick_used st)
  (* first pass: acceptance exactly under the three tests *)
  /\ (forall st s,
        (acceptable st s -> pass1_body st s = accept st s)
        /\ (~ acceptable st s -> pass1_body st s = st))
  /\ (forall st s,
        pick_items (pass1_body st s) <> pick_items st ->
        pass1_body st s = accept st s
        /\ inject_Z (pick_kcal st + k_of st (s_f s)) <= mul64 targetCal lit_1_15)
  /\ (forall scored,
        pick_items (pass1 scored pick_init) <> [] ->
        inject_Z (pick_kcal (pass1 scored pick_init)) <= mul64 targetCal lit_1_15)
  (* first pass: the stop *)
  /\ (forall scored st, stop_reached st -> pass1 scored st = st)
  /\ (forall s rest st, ~ stop_reached st -> pass1 (s :: rest) st = pass1 rest (pass1_body st s))
  (* the second pass runs exactly when needed *)
  /\ (forall scored,
        let st1 := pass1 scored pick_init in
        let needed :=
          length (pick_items st1) = 0%nat
          \/ inject_Z (pick_kcal st1) < mul64 targetCal lit_0_7 in
        (needed -> pickFoodForMeal scored = pass2 scored st1)
        /\ (~ needed -> pickFoodForMeal scored = st1))
  (* second pass: no ceiling test, three ways to stop *)
  /\ (forall scored st, stop_reached st -> pass2 scored st = st)
  /\ (forall s rest st,
        ~ stop_reached st -> used_key (s_f s) ∈ pick_used st ->
        pass2 (s :: rest) st = pass2 rest st)
  /\ (forall s rest st,
        ~ stop_reached st -> used_key (s_f s) ∉ pick_used st ->
        (mul64 targetCal lit_0_9 <= inject_Z (pick_kcal (accept st s)) ->
         pass2 (s :: rest) st = accept st s)
        /\ (inject_Z (pick_kcal (accept st s)) < mul64 targetCal lit_0_9 ->
            pass2 (s :: rest) st = pass2 rest (accept st s))).
Proof.
  split; [split; [reflexivity | split] |].
  - intros Hne. unfold maxItems_of.
    destruct (String.eqb_spec mealType "snack"); [contradiction | reflexivity].
  - intros scored. unfold RuleEngine.pickFoodForMeal. cbv zeta.
    assert (H1 : within_cap (pass1 scored pick_init)).
    { apply pass1_within_cap. unfold within_cap. cbn. lia. }
    destruct (needs_second_pass _ _); [apply pass2_within_cap |]; exact H1.
  - split; [exact accept_adds |].
    split; [exact pass1_body_spec |].
    split; [exact pass1_body_accepts |].
    split; [intros scored; apply pass1_under_ceiling; intros H; contradiction |].
    split; [intros scored st H; apply pass1_stops, stop_true_iff, H |].
    split.
    { intros s rest st H. apply stop_false_iff in H.
      cbn [RuleEngine.pass1]. rewrite H. reflexivity. }
    split.
    { intros scored st1 needed. unfold RuleEngine.pickFoodForMeal. cbv zeta.
      fold st1. subst needed. split; intros H.
      - apply needs_second_pass_iff in H. rewrite H. reflexivity.
      - rewrite <- needs_second_pass_iff in H. apply not_true_is_false in H.
        rewrite H. reflexivity. }
    split; [intros scored st H; apply pass2_stops, stop_true_iff, H |].
    split.
    { intros s rest st H Hu. apply stop_false_iff in H.
      cbn [RuleEngine.pass2]. rewrite H, bool_decide_eq_true_2 by exact Hu. reflexivity. }
    intros s rest st H Hu. apply stop_false_iff in H.
    cbn [RuleEngine.pass2]. rewrite H, bool_decide_eq_false_2 by exact Hu. cbv zeta.
    unfold early_stop. split; intros Hk.
    + apply Qle_bool_iff in Hk. rewrite Hk. reflexivity.
    + apply Qle_bool_false_iff in Hk. rewrite Hk. reflexivity.
Qed.

End PackerProps.

(** *** The thresholds at a target of 700 *)

Section PackerRounding.
Import JS Nutrition RuleEngine.
Local Open Scope Q_scope.

(** A food that carries an identifier, a category and its calories only *)
Definition plain_food (fid category : string) (kcal : Q) : Food :=
  {| food_id := Some fid; id := None; _id := None; name := Some fid;
     dosha_impact := None; dosha_tags := None; tastes := None; rasa := None;
     qualities := None; energy := None; virya := None; season := None;
     calories_100g := Some kcal; calories_per_100g := None; calories := None;
     protein_100g := None; protein := None; carbs_100g := None; fat_100g := None;
     type := Some category; notes := None |}.

Definition ranked (f : Food) (score : Q) : Scored :=
  {| s_f := f; s_score := score;
     s_reasons := {| sDosha := 0; sSeason := 0; sNut := 0; r_season := "winter" |} |}.

(** Three lunch foods, best first: a grain of 350, a legume of 140 and a
    vegetable of 14 kcal per 100 g *)
Definition lunch_grain : Scored := ranked (plain_food "g_1" "grain" 350) 3.
Definition lunch_legume : Scored := ranked (plain_food "l_1" "legume" 140) 2.
Definition lunch_vegetable : Scored := ranked (plain_food "v_1" "vegetable" 14) 1.

(** [700 * 1.1] and [700 * 1.15] in binary64: one unit in the last place
    above 770 and below 805 *)
Example product_700_1_1 : mul64 700 lit_1_1 == 770 + (1 # 8796093022208).
Proof. vm_compute. reflexivity. Qed.

Example product_700_1_15 : mul64 700 lit_1_15 == 805 - (1 # 8796093022208).
Proof. vm_compute. reflexivity. Qed.

(** After the grain (200 g, 700 kcal) and the legume (50 g, 70 kcal) the
    running total is 770, which is 1.1 times 700; the loop goes on and takes
    the vegetable. *)
Example lunch_700_two :
  pick_kcal (pass1 700 "lunch" "Pitta" [lunch_grain; lunch_legume] pick_init) = 770%Z
  /\ length (pick_items (pass1 700 "lunch" "Pitta" [lunch_grain; lunch_legume] pick_init))
     = 2%nat.
Proof. split; vm_compute; reflexivity. Qed.

Example lunch_700_three :
  pick_kcal (pickFoodForMeal 700 "lunch" "Pitta" [lunch_grain; lunch_legume; lunch_vegetable])
  = 777%Z
  /\ length (pick_items (pickFoodForMeal 700 "lunch" "Pitta"
                           [lunch_grain; lunch_legume; lunch_vegetable])) = 3%nat.
Proof. split; vm_compute; reflexivity. Qed.

(** C8, as stated, fails: with a running total of 770 at a target of 700
    the total is at least 1.1 times the target and the cap of three is not
    reached, yet the first pass does not stop: it takes a third food. *)
Lemma packer_stop_not_exact :
  ~ (forall targetCal mealType dosha scored st,
       (maxItems_of mealType <= length (pick_items st))%nat
       \/ targetCal * (11 # 10) <= inject_Z (pick_kcal st) ->
       pass1 targetCal mealType dosha scored st = st).
Proof.
  intros H.
  specialize (H 700 "lunch"%string "Pitta"%string [lunch_vegetable]
                (pass1 700 "lunch" "Pitta" [lunch_grain; lunch_legume] pick_init)).
  assert (Hstop : 700 * (11 # 10)
                  <= inject_Z (pick_kcal (pass1 700 "lunch" "Pitta"
                                            [lunch_grain; lunch_legume] pick_init))).
  { vm_compute. discriminate. }
  specialize (H (or_intror Hstop)).
  apply (f_equal pick_kcal) in H. vm_compute in H. discriminate H.
Qed.

End PackerRounding.


(** ** The plan assembler *)

Section PlanProps.
Import JS Nutrition RuleEngine.
Local Open Scope Q_scope.

(** *** Where the items of a meal come from *)

Section PickedFrom.
Variable targetCal : Q.
Variable mealType : string.
Variable dosha : string.

(** The item's food is one of the scored foods. *)
Definition from_scored (scored : list Scored) (it : PickItem) : Prop :=
  exists s, In s scored /\ p_f it = s_f s.

Lemma from_scored_cons s scored it : from_scored scored it -> from_scored (s :: scored) it.
Proof. intros (s' & Hin & E). exists s'. split; [right; exact Hin | exact E]. Qed.

Lemma accept_items st s it :
  In it (pick_items (accept targetCal mealType dosha st s)) ->
  In it (pick_items st) \/ p_f it = s_f s.
Proof.
  cbn. rewrite in_app_iff. intros [H | [H | []]]; [left; exact H | right].
  rewrite <- H. reflexivity.
Qed.

Lemma pass1_items scored : forall st it,
  In it (pick_items (pass1 targetCal mealType dosha scored st)) ->
  In it (pick_items st) \/ from_scored scored it.
Proof.
  induction scored as [| s rest IH]; intros st it; cbn [pass1]; [left; assumption |].
  destruct (stop targetCal mealType st); [left; assumption |].
  intros H. apply IH in H as [H | H]; [| right; apply from_scored_cons, H].
  destruct (pass1_body_cases targetCal mealType dosha st s) as [E | (E & _)];
    rewrite E in H; [left; exact H |].
  apply accept_items in H as [H | H]; [left; exact H | right].
  exists s. split; [left; reflexivity | exact H].
Qed.

Lemma pass2_items scored : forall st it,
  In it (pick_items (pass2 targetCal mealType dosha scored st)) ->
  In it (pick_items st) \/ from_scored scored it.
Proof.
  induction scored as [| s rest IH]; intros st it; cbn [pass2]; [left; assumption |].
  destruct (stop targetCal mealType st); [left; assumption |].
  destruct (bool_decide _).
  - intros H. apply IH in H as [H | H]; [left; exact H | right; apply from_scored_cons, H].
  - cbv zeta.
    assert (Hacc : forall it', In it' (pick_items (accept targetCal mealType dosha st s)) ->
                               In it' (pick_items st) \/ from_scored (s :: rest) it').
    { intros it' H. apply accept_items in H as [H | H]; [left; exact H | right].
      exists s. split; [left; reflexivity | exact H]. }
    destruct (early_stop _ _); intros H; [apply Hacc, H |].
    apply IH in H as [H | H]; [apply Hacc, H | right; apply from_scored_cons, H].
Qed.

Lemma pickFoodForMeal_items scored it :
  In it (pick_items (pickFoodForMeal targetCal mealType dosha scored)) ->
  from_scored scored it.
Proof.
  unfold pickFoodForMeal. cbv zeta.
  assert (H1 : forall it', In it' (pick_items (pass1 targetCal mealType dosha scored pick_init)) ->
                           from_scored scored it').
  { intros it' H. apply pass1_items in H as [[] | H]. exact H. }
  destruct (needs_second_pass _ _); [| apply H1].
  intros H. apply pass2_items in H as [H | H]; [apply H1, H | exact H].
Qed.

End PickedFrom.

(** *** Sorting keeps the elements *)

Lemma insert_scored_In a l x : In x (insert_scored a l) <-> x = a \/ In x l.
Proof.
  induction l as [| b l IH]; cbn [insert_scored].
  - cbn. intuition congruence.
  - destruct (Qle_bool (s_score b) (s_score a)); cbn [In].
    + intuition congruence.
    + rewrite IH. intuition congruence.
Qed.

Lemma sort_scored_In l x : In x (sort_scored l) <-> In x l.
Proof.
  unfold sort_scored. induction l as [| a l IH]; cbn [fold_right]; [reflexivity |].
  rewrite insert_scored_In, IH. cbn. intuition congruence.
Qed.

Lemma insert_scored_length a l : length (insert_scored a l) = S (length l).
Proof.
  induction l as [| b l IH]; cbn [insert_scored]; [reflexivity |].
  destruct (Qle_bool _ _); cbn [length]; [reflexivity | rewrite IH; reflexivity].
Qed.

(** *** The loop over the meal types *)

(** Sum of the [total_calories] fields of a list of meal slots *)
Definition sum_meal_totals (meals : list Meal) : Z :=
  fold_right Z.add 0%Z (map meal_total_calories meals).

Lemma sum_meal_totals_snoc meals m :
  sum_meal_totals (meals ++ [m]) = (sum_meal_totals meals + meal_total_calories m)%Z.
Proof.
  unfold sum_meal_totals. induction meals as [| m' meals IH]; cbn in *; [lia |].
  rewrite IH. lia.
Qed.

(** Every item of the meal refers to a scored food. *)
Definition meal_from (scored : list Scored) (m : Meal) : Prop :=
  forall it, In it (meal_items m) -> exists s, In s scored /\ i_name it = name (s_f s).

Section MealLoop.
Variable scored : list Scored.
Variable mealCalories : list Z.
Variable dosha : string.

Lemma meal_step_spec acc mt idx :
  exists m,
    meal_step scored mealCalories dosha acc (mt, idx)
    = (fst acc ++ [m], (snd acc + meal_total_calories m)%Z)
    /\ meal_type m = mt /\ meal_from scored m.
Proof.
  destruct acc as [meals total]. cbn [meal_step fst snd].
  match goal with |- exists m, (_ ++ [?m0], _) = _ /\ _ => exists m0 end.
  split; [reflexivity |]. split; [reflexivity |].
  intros it Hit. cbn [meal_items] in Hit.
  apply in_map_iff in Hit as (pit & <- & Hpit).
  apply pickFoodForMeal_items in Hpit as (s & Hs & E).
  exists s. split; [exact Hs |]. cbn. rewrite E. reflexivity.
Qed.

Lemma meal_loop_spec (l : list (string * nat)) : forall acc,
  let r := fold_left (meal_step scored mealCalories dosha) l acc in
  map meal_type (fst r) = map meal_type (fst acc) ++ map fst l
  /\ (snd r - sum_meal_totals (fst r) = snd acc - sum_meal_totals (fst acc))%Z
  /\ (Forall (meal_from scored) (fst acc) -> Forall (meal_from scored) (fst r)).
Proof.
  induction l as [| [mt idx] l IH]; intros acc; cbn [fold_left].
  - cbn. rewrite app_nil_r. auto.
  - destruct (meal_step_spec acc mt idx) as (m & E & Hmt & Hm). rewrite E.
    destruct (IH (fst acc ++ [m], (snd acc + meal_total_calories m)%Z)) as (H1 & H2 & H3).
    cbn [fst snd] in *. split; [| split].
    + rewrite H1, map_app, <- app_assoc. cbn. rewrite Hmt. reflexivity.
    + rewrite H2, sum_meal_totals_snoc. lia.
    + intros Hacc. apply H3. apply Forall_app. split; [exact Hacc |].
      constructor; [exact Hm | constructor].
Qed.

End MealLoop.

Lemma indexed_fst {A} (l : list A) : map fst (indexed l) = l.
Proof.
  unfold indexed. generalize 0%nat. induction l as [| x l IH]; intros n; cbn; [reflexivity |].
  rewrite IH. reflexivity.
Qed.

(** The foods that reach the packer, the slate and the two outputs of the
    loop, as [buildPlan] computes them. *)
Lemma buildPlan_spec clk a :
  let plan := buildPlan clk a in
  map meal_type (plan_meals plan) = mealTypes_of (nullish (plan_type a) "daily"%string)
  /\ plan_total_calories plan = sum_meal_totals (plan_meals plan)
  /\ Forall (fun m => forall it, In it (meal_items m) ->
                      exists f, In f (allowedFoods (profile a) (foods a)) /\ i_name it = name f)
            (plan_meals plan).
Proof.
  unfold buildPlan. cbv zeta.
  match goal with |- context [fold_left (meal_step ?sc ?mc ?d) ?l ?acc] =>
    pose proof (meal_loop_spec sc mc d l acc) as H; cbv zeta in H;
    destruct (fold_left (meal_step sc mc d) l acc) as [meals total] end.
  cbn [fst snd plan_meals plan_total_calories map app] in *.
  destruct H as (H1 & H2 & H3). split; [| split].
  - rewrite H1, indexed_fst. reflexivity.
  - change (sum_meal_totals []) with 0%Z in H2. lia.
  - specialize (H3 (List.Forall_nil _)). revert H3. apply List.Forall_impl.
    intros m Hm it Hit. destruct (Hm it Hit) as (s & Hs & E).
    apply sort_scored_In, in_map_iff in Hs as (f & <- & Hf).
    exists f. split; [exact Hf | exact E].
Qed.

(** *** Sample data: two foods of the repository's test catalog *)

Definition banana : Food :=
  {| food_id := Some "e_171"%string; id := None; _id := None; name := Some "Banana"%string;
     dosha_impact := Some "Vata,Pitta"%string; dosha_tags := None;
     tastes := Some "sweet"%string; rasa := None;
     qualities := Some "heavy, unctuous"%string;
     energy := Some "cooling"%string; virya := None; season := Some "all"%string;
     calories_100g := Some 111; calories_per_100g := None; calories := None;
     protein_100g := Some (125 # 100); protein := None;
     carbs_100g := Some (2495 # 100); fat_100g := Some (32 # 100);
     type := Some "fruit"%string; notes := None |}.

Definition basmati_rice : Food :=
  {| food_id := Some "f_016"%string; id := None; _id := None;
     name := Some "Basmati Rice"%string;
     dosha_impact := Some "Vata,Pitta,Kapha"%string; dosha_tags := None;
     tastes := Some "sweet"%string; rasa := None;
     qualities := Some "heavy, unctuous"%string;
     energy := Some "cooling"%string; virya := None; season := Some "all"%string;
     calories_100g := Some 356; calories_per_100g := None; calories := None;
     protein_100g := Some (794 # 100); protein := None;
     carbs_100g := Some (7824 # 100); fat_100g := Some (52 # 100);
     type := Some "grain"%string; notes := None |}.

(** A Pitta profile with the given disliked and allergy lists *)
Definition pitta_profile (dislikes allergic : list string) : Profile :=
  {| dosha_result := Some "Pitta"%string; sex := Some "M"%string; height_cm := Some 175;
     weight_kg := Some 75; age_years := Some 30; dob := None;
     activity_level := Some "moderate"%string; health_goals := Some ["maintain_health"%string];
     preferences := Some {| liked := Some []; disliked := Some dislikes |};
     allergies := Some allergic; medical_conditions := None |}.

Definition daily_request (p : Profile) (catalog : list Food) : BuildArgs :=
  {| profile := p; foods := Some catalog; plan_type := Some "daily"%string;
     targetCalories := Some 2000 |}.

Definition january : Clock := {| clock_now := 0; clock_month0 := 0 |}.
Definition february : Clock := {| clock_now := 2678400000; clock_month0 := 1 |}.
Definition june : Clock := {| clock_now := 13046400000; clock_month0 := 5 |}.

(** *** Slots and totals *)

(** C2: with a non-empty catalog the plan has the four slots of the daily
    slate when the plan type is "daily" and the three slots of the short
    slate otherwise, and its [total_calories] is the sum of the
    [total_calories] of its slots. *)
Theorem plan_slots_and_total clk a :
  (0 < length (nullish (foods a) []))%nat ->
  let plan := buildPlan clk a in
  (nullish (plan_type a) "daily"%string = "daily"%string ->
   length (plan_meals plan) = 4%nat)
  /\ (nullish (plan_type a) "daily"%string <> "daily"%string ->
      length (plan_meals plan) = 3%nat)
  /\ plan_total_calories plan = sum_meal_totals (plan_meals plan).
Proof.
  intros _ plan. destruct (buildPlan_spec clk a) as (Hslate & Htotal & _). fold plan in Hslate, Htotal.
  assert (Hlen : length (plan_meals plan)
                 = length (mealTypes_of (nullish (plan_type a) "daily"%string))).
  { rewrite <- Hslate, length_map. reflexivity. }
  split; [| split; [| exact Htotal]]; intros Hpt; rewrite Hlen; unfold mealTypes_of.
  - rewrite Hpt. reflexivity.
  - destruct (String.eqb_spec (nullish (plan_type a) "daily"%string) "daily");
      [contradiction | reflexivity].
Qed.

Lemma plan_slots_and_total_witness :
  (0 < length (nullish (foods (daily_request (pitta_profile [] []) [banana; basmati_rice])) []))%nat
  /\ length (plan_meals (buildPlan january
                          (daily_request (pitta_profile [] []) [banana; basmati_rice]))) = 4%nat.
Proof.
  split; [simpl; lia |].
  apply (plan_slots_and_total january
           (daily_request (pitta_profile [] []) [banana; basmati_rice])).
  - simpl. lia.
  - reflexivity.
Defined.

(** *** Exclusions *)

(** A food that passes the filter matches neither list. *)
Lemma allowed_not_listed p f :
  allowed p f = true ->
  (forall al, In al (nullish (allergies p) []) ->
              toLowerCase (strOr (name f)) <> toLowerCase al)
  /\ (forall d, In d (disliked_of p) -> toLowerCase (strOr (name f)) <> toLowerCase d).
Proof.
  unfold allowed. rewrite !andb_true_iff, !negb_true_iff, !bool_decide_eq_false.
  intros [[Hb Ha] _]. split.
  - intros al Hal E. apply Ha. unfold allergies_of.
    rewrite elem_of_list_to_set, list_elem_of_In, in_map_iff. exists al. auto.
  - intros d Hd E. apply Hb. unfold banned_of.
    rewrite elem_of_list_to_set, list_elem_of_In, in_map_iff. exists d. auto.
Qed.

(** C3: no item of any slot of the plan refers to a food whose name matches
    an entry of the allergy list, letter case ignored. *)
Theorem no_allergen_in_plan clk a m it al :
  In m (plan_meals (buildPlan clk a)) ->
  In it (meal_items m) ->
  In al (nullish (allergies (profile a)) []) ->
  toLowerCase (strOr (i_name it)) <> toLowerCase al.
Proof.
  intros Hm Hit Hal.
  destruct (buildPlan_spec clk a) as (_ & _ & Hall).
  rewrite List.Forall_forall in Hall.
  destruct (Hall m Hm it Hit) as (f & Hf & E). rewrite E.
  apply filter_In in Hf as [_ Hf].
  destruct (allowed_not_listed _ _ Hf) as [Ha _]. apply Ha, Hal.
Qed.

(** The same filter removes the disliked foods: none reaches a slot. *)
Lemma no_disliked_in_plan clk a m it d :
  In m (plan_meals (buildPlan clk a)) ->
  In it (meal_items m) ->
  In d (disliked_of (profile a)) ->
  toLowerCase (strOr (i_name it)) <> toLowerCase d.
Proof.
  intros Hm Hit Hd.
  destruct (buildPlan_spec clk a) as (_ & _ & Hall).
  rewrite List.Forall_forall in Hall.
  destruct (Hall m Hm it Hit) as (f & Hf & E). rewrite E.
  apply filter_In in Hf as [_ Hf].
  destruct (allowed_not_listed _ _ Hf) as [_ Hb]. apply Hb, Hd.
Qed.

(** Hence the preference penalty of the scoring step is never subtracted. *)
Lemma penalty_never_applied p dosha season_now fs f :
  In f (allowedFoods p fs) ->
  s_score (score_food p dosha season_now f)
  = scoreDoshaComprehensive dosha f * W_dosha + scoreSeasonMatch season_now f * W_seasonal
    + scoreNutrition p f * W_nutrition - 0.
Proof.
  intros Hf. apply filter_In in Hf as [_ Hf].
  unfold allowed in Hf. rewrite !andb_true_iff, !negb_true_iff in Hf.
  destruct Hf as [[Hb _] _]. unfold score_food. cbv zeta. cbn [s_score].
  rewrite Hb. reflexivity.
Qed.

(** A request whose profile is allergic to the first of two foods *)
Definition allergic_request : BuildArgs :=
  daily_request (pitta_profile [] ["BANANA"%string]) [banana; basmati_rice].

Definition empty_meal : Meal :=
  {| meal_type := ""; meal_items := []; meal_total_calories := 0; meal_explanations := [] |}.

Definition empty_item : PlanItem :=
  {| i_food_id := None; i_name := None; i_portion := ""; i_grams := 0;
     i_macros := {| m_calories := 0; m_protein := 0; m_carbs := 0; m_fats := 0 |};
     i_why := "" |}.

(** The breakfast of that request and its first item, the rice *)
Definition allergic_breakfast : Meal :=
  Eval vm_compute in hd empty_meal (plan_meals (buildPlan january allergic_request)).

Definition allergic_breakfast_item : PlanItem :=
  Eval vm_compute in hd empty_item (meal_items allergic_breakfast).

Lemma no_allergen_in_plan_witness :
  In allergic_breakfast (plan_meals (buildPlan january allergic_request))
  /\ In allergic_breakfast_item (meal_items allergic_breakfast)
  /\ In "BANANA"%string (nullish (allergies (profile allergic_request)) [])
  /\ toLowerCase (strOr (i_name allergic_breakfast_item)) <> toLowerCase "BANANA".
Proof.
  assert (Hm : In allergic_breakfast (plan_meals (buildPlan january allergic_request)))
    by (vm_compute; left; reflexivity).
  assert (Hit : In allergic_breakfast_item (meal_items allergic_breakfast))
    by (vm_compute; left; reflexivity).
  assert (Hal : In "BANANA"%string (nullish (allergies (profile allergic_request)) []))
    by (simpl; left; reflexivity).
  repeat split; try assumption.
  exact (no_allergen_in_plan january allergic_request allergic_breakfast
           allergic_breakfast_item "BANANA" Hm Hit Hal).
Defined.

(** The same catalog of one food, requested with and without a dislike *)
Definition disliking_request : BuildArgs :=
  daily_request (pitta_profile ["banana"%string] []) [banana].

Definition neutral_request : BuildArgs :=
  daily_request (pitta_profile [] []) [banana].

(** C1: a disliked food is removed by the filter, not penalised: with
    "banana" in the disliked list the only food of the catalog is filtered
    out and all four slots are empty, where the same request without the
    dislike serves it in every slot. *)
Theorem disliked_food_removed :
  allowedFoods (profile disliking_request) (foods disliking_request) = []
  /\ map (fun m => map i_name (meal_items m)) (plan_meals (buildPlan january disliking_request))
     = [[]; []; []; []]
  /\ map (fun m => map i_name (meal_items m)) (plan_meals (buildPlan january neutral_request))
     = [[Some "Banana"]; [Some "Banana"]; [Some "Banana"]; [Some "Banana"]]%string.
Proof. repeat split; vm_compute; reflexivity. Qed.

(** *** Dependence on the clock *)

(** C4, as stated, fails: the same request gives a winter plan in January
    and a monsoon plan in June. *)
Lemma plan_depends_on_clock :
  ~ (forall clk1 clk2 a, buildPlan clk1 a = buildPlan clk2 a).
Proof.
  intros H. specialize (H january june neutral_request).
  apply (f_equal plan_season) in H. vm_compute in H. discriminate H.
Qed.

(** A profile that gives a birth date (the epoch) and no age *)
Definition born_at_epoch : Profile :=
  {| dosha_result := None; sex := None; height_cm := None; weight_kg := None;
     age_years := None; dob := Some 0%Z; activity_level := None; health_goals := None;
     preferences := None; allergies := None; medical_conditions := None |}.

(** Forty years of 365.25 days after the epoch *)
Definition forty_years_on : Clock := {| clock_now := 1262304000000; clock_month0 := 0 |}.

(** Without [age_years] the calorie target follows [Date.now()]. *)
Example target_depends_on_now :
  calculateTargetCalories january born_at_epoch = 2740%Z
  /\ calculateTargetCalories forty_years_on born_at_epoch = 2430%Z.
Proof. split; vm_compute; reflexivity. Qed.

Lemma target_same_age clk1 clk2 p :
  age_of clk1 p = age_of clk2 p ->
  calculateTargetCalories clk1 p = calculateTargetCalories clk2 p.
Proof.
  intros Hage. unfold calculateTargetCalories, calculateTDEE, calculateBMR.
  rewrite Hage. reflexivity.
Qed.

(** C4 (amended): the plan is a function of the request and of two readings
    of the clock only, the season of the current month and, when no target
    is supplied, the age derived from the current time: two calls with the
    same request agree whenever these agree. *)
Theorem plan_determined_by_season_and_age clk1 clk2 a :
  getSeasonFromMonth (clock_month0 clk1 + 1) = getSeasonFromMonth (clock_month0 clk2 + 1) ->
  targetCalories a <> None \/ age_of clk1 (profile a) = age_of clk2 (profile a) ->
  buildPlan clk1 a = buildPlan clk2 a.
Proof.
  intros Hseason Htarget. unfold buildPlan. cbv zeta. rewrite Hseason.
  destruct (targetCalories a) as [t |]; [reflexivity |].
  destruct Htarget as [Hn | Hage]; [contradiction |].
  rewrite (target_same_age clk1 clk2 _ Hage). reflexivity.
Qed.

Lemma plan_determined_by_season_and_age_witness :
  getSeasonFromMonth (clock_month0 january + 1) = getSeasonFromMonth (clock_month0 february + 1)
  /\ buildPlan january neutral_request = buildPlan february neutral_request.
Proof.
  split; [reflexivity |].
  apply (plan_determined_by_season_and_age january february neutral_request).
  - reflexivity.
  - right. reflexivity.
Defined.

End PlanProps.


(** * Further properties of the nutrition calculator *)

Section RoundingMore.
Import JS.
Local Open Scope Q_scope.

Lemma Math_round_err (x : Q) :
  x - (1 # 2) < inject_Z (Math_round x) /\ inject_Z (Math_round x) <= x + (1 # 2).
Proof.
  unfold Math_round. split.
  - pose proof (Qlt_floor (x + (1 # 2))) as H.
    rewrite inject_Z_plus in H. change (inject_Z 1) with 1 in H. lra.
  - apply Qfloor_le.
Qed.

Lemma Math_round_mono (x y : Q) : x <= y -> (Math_round x <= Math_round y)%Z.
Proof. intros H. unfold Math_round. apply Qfloor_resp_le. lra. Qed.

Lemma Math_round_comp (x y : Q) : x == y -> Math_round x = Math_round y.
Proof. intros H. unfold Math_round. apply Qfloor_comp. rewrite H. reflexivity. Qed.

Lemma Math_round_Z (z : Z) : Math_round (inject_Z z) = z.
Proof.
  apply Z.le_antisymm.
  - destruct (Math_round_err (inject_Z z)) as [_ Hhi].
    assert (H : inject_Z (Math_round (inject_Z z)) < inject_Z (z + 1)).
    { rewrite inject_Z_plus. change (inject_Z 1) with 1. lra. }
    rewrite <- Zlt_Qlt in H. lia.
  - apply Math_round_ge_iff. lra.
Qed.

(** From a strict bound between integers seen as rationals *)
Lemma Z_bounds_of_Q (a : Z) (lo hi : Z) :
  inject_Z lo - 1 < inject_Z a -> inject_Z a < inject_Z hi + 1 -> (lo <= a <= hi)%Z.
Proof.
  intros Hlo Hhi.
  assert (H1 : inject_Z (lo - 1) < inject_Z a).
  { unfold Z.sub. rewrite inject_Z_plus. change (inject_Z (- (1))) with (- (1)). lra. }
  assert (H2 : inject_Z a < inject_Z (hi + 1)).
  { rewrite inject_Z_plus. change (inject_Z 1) with 1. lra. }
  rewrite <- Zlt_Qlt in H1, H2. lia.
Qed.

(** Rounding twice a value against twice the rounded value *)
Lemma Math_round_double (x : Q) :
  (-1 <= Math_round (2 * x) - 2 * Math_round x <= 1)%Z.
Proof.
  destruct (Math_round_err x) as [L1 H1]. destruct (Math_round_err (2 * x)) as [L2 H2].
  apply Z_bounds_of_Q.
  - unfold Z.sub. rewrite inject_Z_plus, inject_Z_opp, inject_Z_mult.
    change (inject_Z (-1)) with (-1). change (inject_Z 2) with 2. lra.
  - unfold Z.sub. rewrite inject_Z_plus, inject_Z_opp, inject_Z_mult.
    change (inject_Z 1) with 1. change (inject_Z 2) with 2. lra.
Qed.

End RoundingMore.

Section NutritionMore.
Import JS Nutrition.
Local Open Scope Q_scope.

(** *** distributeMealCalories *)

Definition sumZ (l : list Z) : Z := fold_right Z.add 0%Z l.
Definition sumQ (l : list Q) : Q := fold_right Qplus 0 l.

(** The number of elements of a list, as a rational *)
Definition Qlen {A} (l : list A) : Q := inject_Z (Z.of_nat (length l)).

Lemma Qlen_cons {A} (x : A) (l : list A) : Qlen (x :: l) == Qlen l + 1.
Proof.
  unfold Qlen. cbn [length]. rewrite Nat2Z.inj_succ. unfold Z.succ.
  rewrite inject_Z_plus. reflexivity.
Qed.

(** Rounding each share moves the sum by at most a half per share. *)
Lemma rounded_shares_close (total : Q) (dist : list Q) :
  let parts := map (fun pct => Math_round (total * pct)) dist in
  total * sumQ dist - Qlen dist * (1 # 2) <= inject_Z (sumZ parts)
  /\ inject_Z (sumZ parts) <= total * sumQ dist + Qlen dist * (1 # 2).
Proof.
  cbv zeta. induction dist as [| pct dist IH].
  - change (total * 0 - 0 * (1 # 2) <= 0 /\ 0 <= total * 0 + 0 * (1 # 2)). split; lra.
  - cbn [map sumZ sumQ fold_right]. fold (sumZ (map (fun pct => Math_round (total * pct)) dist)).
    fold (sumQ dist). rewrite inject_Z_plus, Qlen_cons.
    destruct (Math_round_err (total * pct)) as [L H]. destruct IH as [IL IH].
    split; lra.
Qed.

Lemma distribution_total (mealCount : nat) :
  sumQ (nullish (distributions mealCount) [30 # 100; 40 # 100; 30 # 100]) == 1.
Proof.
  destruct mealCount as [| [| [| [| [| [| n]]]]]]; reflexivity.
Qed.

Lemma distribute_length (totalCalories : Q) (mealCount : nat) :
  length (distributeMealCalories totalCalories mealCount)
  = match mealCount with 4%nat => 4%nat | 5%nat => 5%nat | _ => 3%nat end.
Proof.
  unfold distributeMealCalories. rewrite length_map.
  destruct mealCount as [| [| [| [| [| [| n]]]]]]; reflexivity.
Qed.

(** X2: the shares that [distributeMealCalories] returns add up to the total
    up to the rounding of each share: the sum is within half a calorie per
    share of the total, whatever the meal count. *)
Theorem distribute_sum_close (totalCalories : Q) (mealCount : nat) :
  let parts := distributeMealCalories totalCalories mealCount in
  totalCalories - Qlen parts * (1 # 2) <= inject_Z (sumZ parts)
  /\ inject_Z (sumZ parts) <= totalCalories + Qlen parts * (1 # 2).
Proof.
  cbv zeta. unfold distributeMealCalories.
  pose proof (rounded_shares_close totalCalories
                (nullish (distributions mealCount) [30 # 100; 40 # 100; 30 # 100])) as H.
  cbv zeta in H. rewrite distribution_total in H.
  replace (Qlen (map (fun pct => Math_round (totalCalories * pct))
                    (nullish (distributions mealCount) [30 # 100; 40 # 100; 30 # 100])))
    with (Qlen (nullish (distributions mealCount) [30 # 100; 40 # 100; 30 # 100])).
  - destruct H as [L H]. split; lra.
  - unfold Qlen. rewrite length_map. reflexivity.
Qed.

(** X1: [distributeMealCalories] returns as many shares as meals for 3, 4 and
    5 meals and falls back to the three shares of the 3-meal table for any
    other count; for the two slates of [buildPlan] every slot index
    therefore has a share. *)
Theorem distribute_covers_slate (totalCalories : Q) (mealCount : nat) :
  (mealCount = 3%nat \/ mealCount = 4%nat \/ mealCount = 5%nat ->
   length (distributeMealCalories totalCalories mealCount) = mealCount)
  /\ (mealCount <> 3%nat -> mealCount <> 4%nat -> mealCount <> 5%nat ->
      distributeMealCalories totalCalories mealCount
      = distributeMealCalories totalCalories 3)
  /\ (forall plan_type idx,
        (idx < length (RuleEngine.mealTypes_of plan_type))%nat ->
        is_Some (distributeMealCalories totalCalories
                   (length (RuleEngine.mealTypes_of plan_type)) !! idx)).
Proof.
  split; [| split].
  - intros [-> | [-> | ->]]; reflexivity.
  - intros H3 H4 H5. unfold distributeMealCalories.
    destruct mealCount as [| [| [| [| [| [| n]]]]]]; try reflexivity; contradiction.
  - intros plan_type idx Hidx. apply lookup_lt_is_Some.
    rewrite distribute_length. unfold RuleEngine.mealTypes_of in *.
    destruct (String.eqb plan_type "daily"); cbn in *; exact Hidx.
Qed.

End NutritionMore.

Section FoodMacrosProps.
Import JS Nutrition.
Local Open Scope Q_scope.

Lemma numOr_nonneg (a : option Q) (d : Q) :
  (forall q, a = Some q -> 0 <= q) -> 0 <= d -> 0 <= numOr a d.
Proof.
  intros Ha Hd. unfold numOr. destruct a as [q |]; [| exact Hd].
  destruct (Qeq_bool q 0); [exact Hd | apply Ha; reflexivity].
Qed.

Lemma Math_round_nonneg (x : Q) : 0 <= x -> (0 <= Math_round x)%Z.
Proof. intros H. apply Math_round_ge_iff. change (inject_Z 0) with 0. lra. Qed.

Lemma tenths_nonneg (x : Q) : 0 <= x -> 0 <= inject_Z (Math_round (x * 10)) / 10.
Proof.
  intros H. apply Qle_shift_div_l; [reflexivity |].
  assert (Hr : (0 <= Math_round (x * 10))%Z) by (apply Math_round_nonneg; lra).
  rewrite Zle_Qle in Hr. change (inject_Z 0) with 0 in Hr. lra.
Qed.

(** X3: for a food whose per-100g values are not negative and a weight that
    is not negative, none of the four portion macros is negative. *)
Theorem food_macros_nonneg (food : Food) (grams : Q) :
  (forall q, calories_100g food = Some q -> 0 <= q) ->
  (forall q, protein_100g food = Some q -> 0 <= q) ->
  (forall q, carbs_100g food = Some q -> 0 <= q) ->
  (forall q, fat_100g food = Some q -> 0 <= q) ->
  0 <= grams ->
  (0 <= m_calories (calculateFoodMacros food grams))%Z
  /\ 0 <= m_protein (calculateFoodMacros food grams)
  /\ 0 <= m_carbs (calculateFoodMacros food grams)
  /\ 0 <= m_fats (calculateFoodMacros food grams).
Proof.
  intros Hc Hp Hb Hf Hg.
  assert (Hs : 0 <= grams / 100) by (apply Qle_shift_div_l; [reflexivity | lra]).
  pose proof (numOr_nonneg _ 0 Hc (Qle_refl 0)) as Nc.
  pose proof (numOr_nonneg _ 0 Hp (Qle_refl 0)) as Np.
  pose proof (numOr_nonneg _ 0 Hb (Qle_refl 0)) as Nb.
  pose proof (numOr_nonneg _ 0 Hf (Qle_refl 0)) as Nf.
  unfold calculateFoodMacros. cbn [m_calories m_protein m_carbs m_fats].
  repeat split.
  - apply Math_round_nonneg. apply Qmult_le_0_compat; assumption.
  - apply tenths_nonneg. apply Qmult_le_0_compat; assumption.
  - apply tenths_nonneg. apply Qmult_le_0_compat; assumption.
  - apply tenths_nonneg. apply Qmult_le_0_compat; assumption.
Qed.

Lemma food_macros_nonneg_witness :
  0 <= 120
  /\ (0 <= m_calories (calculateFoodMacros banana 120))%Z.
Proof.
  split; [discriminate |].
  apply (food_macros_nonneg banana 120).
  - intros q H. injection H as <-. discriminate.
  - intros q H. injection H as <-. discriminate.
  - intros q H. injection H as <-. discriminate.
  - intros q H. injection H as <-. discriminate.
  - discriminate.
Defined.

(** X4: doubling the weight doubles the portion macros up to the rounding:
    the calories differ from twice the calories by at most 1, each of
    protein, carbs and fats from twice its value by at most 0.1. *)
Theorem food_macros_double (food : Food) (grams : Q) :
  let one := calculateFoodMacros food grams in
  let two := calculateFoodMacros food (2 * grams) in
  (-1 <= m_calories two - 2 * m_calories one <= 1)%Z
  /\ (- (1 # 10) <= m_protein two - 2 * m_protein one /\ m_protein two - 2 * m_protein one <= 1 # 10)
  /\ (- (1 # 10) <= m_carbs two - 2 * m_carbs one /\ m_carbs two - 2 * m_carbs one <= 1 # 10)
  /\ (- (1 # 10) <= m_fats two - 2 * m_fats one /\ m_fats two - 2 * m_fats one <= 1 # 10).
Proof.
  cbv zeta. unfold calculateFoodMacros. cbn [m_calories m_protein m_carbs m_fats].
  assert (Hten : forall c : Q,
             - (1 # 10) <= inject_Z (Math_round (c * (2 * grams / 100) * 10)) / 10
                           - 2 * (inject_Z (Math_round (c * (grams / 100) * 10)) / 10)
             /\ inject_Z (Math_round (c * (2 * grams / 100) * 10)) / 10
                - 2 * (inject_Z (Math_round (c * (grams / 100) * 10)) / 10) <= 1 # 10).
  { intros c.
    rewrite (Math_round_comp (c * (2 * grams / 100) * 10) (2 * (c * (grams / 100) * 10)))
      by field.
    pose proof (Math_round_double (c * (grams / 100) * 10)) as [L H].
    set (a := Math_round (2 * (c * (grams / 100) * 10))) in *.
    set (b := Math_round (c * (grams / 100) * 10)) in *.
    assert (La : -1 <= inject_Z a - 2 * inject_Z b).
    { rewrite Zle_Qle in L. unfold Z.sub in L.
      rewrite inject_Z_plus, inject_Z_opp, inject_Z_mult in L.
      change (inject_Z (-1)) with (-1) in L. change (inject_Z 2) with 2 in L. lra. }
    assert (Ha : inject_Z a - 2 * inject_Z b <= 1).
    { rewrite Zle_Qle in H. unfold Z.sub in H.
      rewrite inject_Z_plus, inject_Z_opp, inject_Z_mult in H.
      change (inject_Z 1) with 1 in H. change (inject_Z 2) with 2 in H. lra. }
    unfold Qdiv. change (/ 10) with (1 # 10). split; lra. }
  split; [| repeat split; apply Hten].
  rewrite (Math_round_comp (numOr (calories_100g food) 0 * (2 * grams / 100))
             (2 * (numOr (calories_100g food) 0 * (grams / 100)))) by field.
  apply Math_round_double.
Qed.

End FoodMacrosProps.

Section MealMacrosProps.
Import JS Nutrition.
Local Open Scope Q_scope.

(** The macros of one entry *)
Definition entry_macros (item : MealEntry) : Macros :=
  calculateFoodMacros (e_food item) (nullish (e_grams item) 100).

Lemma fold_add_entry (items : list MealEntry) : forall total,
  m_calories (fold_left add_entry items total)
  = (m_calories total + sumZ (map (fun e => m_calories (entry_macros e)) items))%Z.
Proof.
  induction items as [| e items IH]; intros total; cbn [fold_left map sumZ fold_right].
  - lia.
  - rewrite IH. cbn [add_entry m_calories]. fold (entry_macros e).
    fold (sumZ (map (fun e => m_calories (entry_macros e)) items)). lia.
Qed.

Lemma sumZ_app l1 l2 : sumZ (l1 ++ l2) = (sumZ l1 + sumZ l2)%Z.
Proof. unfold sumZ. induction l1 as [| x l1 IH]; cbn in *; [reflexivity | rewrite IH; lia]. Qed.

(** The sums of protein are rounded: a tenth, two tenths and three tenths
    add up to 0.6000000000000001, one unit in the last place above the
    binary64 number 0.6. *)
Example rounded_sum_of_tenths :
  add64 (add64 (add64 0 (to_double (1 # 10))) (to_double (2 # 10))) (to_double (3 # 10))
  == to_double (6 # 10) + (1 # 9007199254740992).
Proof. vm_compute. reflexivity. Qed.


End MealMacrosProps.

Section TargetProps.
Import JS Nutrition.
Local Open Scope Q_scope.

Lemma activity_factor_bounds (p : Profile) :
  12 # 10 <= activity_factor p /\ activity_factor p <= 19 # 10.
Proof.
  unfold activity_factor, factors, lookup_key, nullish.
  repeat match goal with |- context [if ?b then _ else _] => destruct b end;
    split; discriminate.
Qed.

(** X6: whatever the goals, the calorie target of a profile whose energy
    expenditure is not negative lies between the rounded 80% and the rounded
    115% of that expenditure. *)
Theorem target_within_goal_band (clk : Clock) (p : Profile) :
  (0 <= calculateTDEE clk p)%Z ->
  (Math_round (inject_Z (calculateTDEE clk p) * (8 # 10))
   <= calculateTargetCalories clk p
   <= Math_round (inject_Z (calculateTDEE clk p) * (115 # 100)))%Z.
Proof.
  intros H. unfold calculateTargetCalories. cbv zeta.
  set (t := calculateTDEE clk p) in *.
  assert (Ht : 0 <= inject_Z t) by (rewrite Zle_Qle in H; exact H).
  assert (Hlo : (Math_round (inject_Z t * (8 # 10)) <= t)%Z).
  { rewrite <- (Math_round_Z t) at 2. apply Math_round_mono. lra. }
  assert (Hhi : (t <= Math_round (inject_Z t * (115 # 100)))%Z).
  { rewrite <- (Math_round_Z t) at 1. apply Math_round_mono. lra. }
  assert (H1 : (Math_round (inject_Z t * (8 # 10)) <= Math_round (inject_Z t * (11 # 10)))%Z)
    by (apply Math_round_mono; lra).
  assert (H2 : (Math_round (inject_Z t * (11 # 10)) <= Math_round (inject_Z t * (115 # 100)))%Z)
    by (apply Math_round_mono; lra).
  repeat match goal with |- context [if ?b then _ else _] => destruct b end; lia.
Qed.

Lemma target_within_goal_band_witness :
  (0 <= calculateTDEE epoch empty_profile)%Z
  /\ (Math_round (inject_Z (calculateTDEE epoch empty_profile) * (8 # 10))
      <= calculateTargetCalories epoch empty_profile
      <= Math_round (inject_Z (calculateTDEE epoch empty_profile) * (115 # 100)))%Z.
Proof.
  split; [vm_compute; discriminate |].
  apply (target_within_goal_band epoch empty_profile). vm_compute. discriminate.
Defined.

Lemma age_of_mono (clk1 clk2 : Clock) (p : Profile) :
  (clock_now clk1 <= clock_now clk2)%Z -> age_of clk1 p <= age_of clk2 p.
Proof.
  intros H. unfold age_of. destruct (age_years p); [apply Qle_refl |].
  destruct (dob p) as [t |]; [| apply Qle_refl].
  rewrite <- Zle_Qle. unfold Math_floor. apply Qfloor_resp_le.
  unfold Qdiv. apply Qmult_le_compat_r; [| discriminate].
  rewrite <- Zle_Qle. lia.
Qed.

(** X7: all else equal, the calorie target never grows as the clock
    advances: the age derived from the birth date can only increase, which
    lowers the basal rate, and the activity factor, the roundings and the
    goal factors keep the order. *)
Theorem target_nonincreasing_in_time (clk1 clk2 : Clock) (p : Profile) :
  (clock_now clk1 <= clock_now clk2)%Z ->
  (calculateTargetCalories clk2 p <= calculateTargetCalories clk1 p)%Z.
Proof.
  intros H. pose proof (age_of_mono clk1 clk2 p H) as Hage.
  assert (Htdee : (calculateTDEE clk2 p <= calculateTDEE clk1 p)%Z).
  { unfold calculateTDEE, calculateBMR. cbv zeta. apply Math_round_mono.
    destruct (activity_factor_bounds p) as [Hf _].
    apply Qmult_le_compat_r; lra. }
  unfold calculateTargetCalories. cbv zeta.
  rewrite Zle_Qle in Htdee.
  repeat match goal with |- context [if ?b then _ else _] => destruct b end;
    try (apply Math_round_mono; lra).
  rewrite Zle_Qle. exact Htdee.
Qed.

Lemma target_nonincreasing_in_time_witness :
  (clock_now january <= clock_now forty_years_on)%Z
  /\ (calculateTargetCalories forty_years_on born_at_epoch
      <= calculateTargetCalories january born_at_epoch)%Z.
Proof.
  split; [vm_compute; discriminate |].
  apply (target_nonincreasing_in_time january forty_years_on born_at_epoch).
  vm_compute. discriminate.
Defined.

End TargetProps.


(** * Further properties of the food scorer *)

Section ScorerMore.
Import JS Nutrition RuleEngine.
Local Open Scope Q_scope.

Lemma fold_left_fixed {A} (step : Q -> A -> Q) (l : list A) (s : Q) :
  (forall s a, step s a = s) -> fold_left step l s = s.
Proof.
  intros Hstep. revert s. induction l as [| a l IH]; intros s; cbn [fold_left];
    [reflexivity | rewrite Hstep; apply IH].
Qed.

Section OtherDosha.
Variable userDosha : string.
Hypothesis not_pitta : userDosha <> "Pitta"%string.
Hypothesis not_kapha : userDosha <> "Kapha"%string.
Hypothesis not_vata : userDosha <> "Vata"%string.

Lemma eqb_pitta : String.eqb userDosha "Pitta" = false.
Proof. apply String.eqb_neq. exact not_pitta. Qed.

Lemma eqb_kapha : String.eqb userDosha "Kapha" = false.
Proof. apply String.eqb_neq. exact not_kapha. Qed.

Lemma eqb_vata : String.eqb userDosha "Vata" = false.
Proof. apply String.eqb_neq. exact not_vata. Qed.

Lemma rasa_step_other s r : rasa_step userDosha s r = s.
Proof. unfold rasa_step. rewrite eqb_pitta, eqb_kapha, eqb_vata. reflexivity. Qed.

Lemma guna_step_other s g : guna_step userDosha s g = s.
Proof. unfold guna_step. rewrite eqb_kapha, eqb_vata. reflexivity. Qed.

Lemma virya_step_other f s : virya_step userDosha f s = s.
Proof.
  unfold virya_step. cbv zeta. rewrite eqb_pitta, eqb_kapha, eqb_vata. cbn [andb].
  destruct (nonempty _); reflexivity.
Qed.

(** X8: for a user dosha other than the three literals "Pitta", "Kapha" and
    "Vata" (a dual constitution such as "Vata-Pitta" included), tastes,
    qualities and energy of a food do not count: the dosha score is the
    dosha-impact term of the tag string alone. *)
Theorem other_dosha_scores_tags_only (f : Food) :
  scoreDoshaComprehensive userDosha f
  == (if includes (toLowerCase (impact_of f)) "balancing"
         || includes (toLowerCase (impact_of f)) "tridosha"
      then 1 else 0)
     - (if nonempty (impact_of f) && includes (impact_of f) userDosha then 1 # 2 else 0).
Proof.
  unfold scoreDoshaComprehensive. cbv zeta.
  rewrite virya_step_other.
  rewrite (fold_left_fixed _ _ _ guna_step_other).
  rewrite (fold_left_fixed _ _ _ rasa_step_other).
  rewrite impact_step_term. unfold impact_term. cbv zeta. ring.
Qed.

End OtherDosha.

Lemma other_dosha_scores_tags_only_witness :
  "Vata-Pitta"%string <> "Pitta"%string
  /\ scoreDoshaComprehensive "Vata-Pitta" banana == 0.
Proof.
  split; [discriminate |].
  rewrite (other_dosha_scores_tags_only "Vata-Pitta"); [reflexivity | discriminate ..].
Defined.

(** *** The season term *)

Lemma season_cases (month : Z) :
  getSeasonFromMonth month = "spring"%string \/ getSeasonFromMonth month = "monsoon"%string
  \/ getSeasonFromMonth month = "autumn"%string \/ getSeasonFromMonth month = "winter"%string.
Proof.
  unfold getSeasonFromMonth.
  repeat match goal with |- context [if ?b then _ else _] => destruct b end; auto.
Qed.

(** X9: the engine's season is never "summer", and a food whose season tags
    name neither "all" nor one of the four seasons of the engine (a food
    tagged "summer" only, for one) gets no season credit in any month. *)
Theorem unknown_season_never_matches (month : Z) (f : Food) :
  includes (toLowerCase (strOr (season f))) "all" = false ->
  includes (toLowerCase (strOr (season f))) "spring" = false ->
  includes (toLowerCase (strOr (season f))) "monsoon" = false ->
  includes (toLowerCase (strOr (season f))) "autumn" = false ->
  includes (toLowerCase (strOr (season f))) "winter" = false ->
  getSeasonFromMonth month <> "summer"%string
  /\ scoreSeasonMatch (getSeasonFromMonth month) f = 0.
Proof.
  intros Hall Hsp Hmo Hau Hwi. split.
  - destruct (season_cases month) as [E | [E | [E | E]]]; rewrite E; discriminate.
  - unfold scoreSeasonMatch. cbv zeta. rewrite Hall.
    destruct (negb _); [reflexivity |].
    destruct (season_cases month) as [E | [E | [E | E]]]; rewrite E.
    + rewrite Hsp. reflexivity.
    + rewrite Hmo. reflexivity.
    + rewrite Hau. reflexivity.
    + rewrite Hwi. reflexivity.
Qed.

(** A food tagged for the summer only *)
Definition summer_food : Food :=
  {| food_id := Some "d_091"%string; id := None; _id := None;
     name := Some "Bottle Gourd"%string;
     dosha_impact := Some "Pitta"%string; dosha_tags := None;
     tastes := Some "sweet"%string; rasa := None;
     qualities := Some "light, unctuous"%string;
     energy := Some "cooling"%string; virya := None; season := Some "summer"%string;
     calories_100g := Some 14; calories_per_100g := None; calories := None;
     protein_100g := Some (42 # 100); protein := None;
     carbs_100g := Some (253 # 100); fat_100g := Some (12 # 100);
     type := Some "vegetable"%string; notes := None |}.

Lemma unknown_season_never_matches_witness :
  includes (toLowerCase (strOr (season summer_food))) "all" = false
  /\ scoreSeasonMatch (getSeasonFromMonth 7) summer_food = 0.
Proof.
  split; [reflexivity |].
  apply (unknown_season_never_matches 7 summer_food); reflexivity.
Defined.

(** *** The nutrition term *)

(** X10: the nutrition term lies between 0 and 3.5: the two calorie
    bonuses (under 150 and over 200 kcal per 100 g) exclude each other. *)
Theorem scoreNutrition_bounds (p : Profile) (f : Food) :
  0 <= scoreNutrition p f /\ scoreNutrition p f <= 7 # 2.
Proof.
  unfold scoreNutrition. cbv zeta.
  set (prot := numOr (orQ (protein_100g f) (protein f)) 0).
  set (cal := numOr (orQ (calories_100g f) (calories f)) 0).
  destruct (Qle_bool 150 cal) eqn:E1; destruct (Qle_bool cal 200) eqn:E2;
    cbn [negb].
  - repeat match goal with |- context [if ?b then _ else _] => destruct b end; split; lra.
  - repeat match goal with |- context [if ?b then _ else _] => destruct b end; split; lra.
  - repeat match goal with |- context [if ?b then _ else _] => destruct b end; split; lra.
  - apply Qle_bool_false_iff in E1. apply Qle_bool_false_iff in E2. lra.
Qed.

Lemma arr_includes_cons_ne (x y : string) (l : list string) :
  y <> x -> arr_includes (x :: l) y = arr_includes l y.
Proof.
  intros Hne. unfold arr_includes. apply eq_true_iff_eq.
  rewrite !bool_decide_eq_true, elem_of_cons. intuition congruence.
Qed.

(** X11: the goal "weight_gain", which [calculateTargetCalories] answers with
    a 15% surplus, has no effect on the nutrition term: [scoreNutrition]
    looks for "muscle_gain" and "Weight Gain" only. *)
Theorem weight_gain_goal_not_scored (p : Profile) (goals : list string) (f : Food) :
  scoreNutrition (with_goals p ("weight_gain"%string :: goals)) f
  = scoreNutrition (with_goals p goals) f.
Proof.
  unfold scoreNutrition. cbn [health_goals with_goals nullish].
  rewrite !arr_includes_cons_ne by discriminate. reflexivity.
Qed.

End ScorerMore.


(** * Further properties of the filter and of the sort *)

From Stdlib Require Import Sorting.Sorted Sorting.Permutation.

Section FilterSortMore.
Import JS Nutrition RuleEngine.
Local Open Scope Q_scope.

Lemma filter_all {A} (g : A -> bool) (l : list A) :
  (forall x, In x l -> g x = true) -> List.filter g l = l.
Proof.
  induction l as [| x l IH]; intros H; cbn [List.filter]; [reflexivity |].
  rewrite (H x (or_introl eq_refl)), IH; [reflexivity |].
  intros y Hy. apply H. right. exact Hy.
Qed.

Lemma arr_includes_false (l : list string) (x : string) :
  ~ In x l -> arr_includes l x = false.
Proof.
  intros H. unfold arr_includes. apply bool_decide_eq_false.
  rewrite list_elem_of_In. exact H.
Qed.

(** X12: for a profile with no disliked entry, no allergy and neither of the
    two conditions "diabetes" and "hypertension", the filter of [buildPlan]
    keeps the whole catalog, in its order. *)
Theorem filter_keeps_all (p : Profile) (fs : option (list Food)) :
  disliked_of p = [] ->
  nullish (allergies p) [] = [] ->
  ~ In "diabetes"%string (nullish (medical_conditions p) []) ->
  ~ In "hypertension"%string (nullish (medical_conditions p) []) ->
  allowedFoods p fs = nullish fs [].
Proof.
  intros Hd Ha Hdia Hhyp. unfold allowedFoods. apply filter_all.
  intros f _. unfold allowed, banned_of, allergies_of, isContra. cbv zeta.
  rewrite Hd, Ha, (arr_includes_false _ _ Hdia), (arr_includes_false _ _ Hhyp).
  reflexivity.
Qed.

Lemma filter_keeps_all_witness :
  disliked_of (pitta_profile [] []) = []
  /\ allowedFoods (pitta_profile [] []) (Some [banana; basmati_rice]) = [banana; basmati_rice].
Proof.
  split; [reflexivity |].
  apply (filter_keeps_all (pitta_profile [] []) (Some [banana; basmati_rice])).
  - reflexivity.
  - reflexivity.
  - simpl. intros [].
  - simpl. intros [].
Defined.

(** *** The sort *)

(** [a] is ranked no lower than [b] *)
Definition score_ge (a b : Scored) : Prop := s_score b <= s_score a.

Lemma insert_scored_perm a l : Permutation (a :: l) (insert_scored a l).
Proof.
  induction l as [| b l IH]; cbn [insert_scored]; [apply Permutation_refl |].
  destruct (Qle_bool (s_score b) (s_score a)); [apply Permutation_refl |].
  apply Permutation_trans with (b :: a :: l); [apply perm_swap |].
  apply perm_skip. exact IH.
Qed.

Lemma insert_scored_sorted a l :
  StronglySorted score_ge l -> StronglySorted score_ge (insert_scored a l).
Proof.
  induction 1 as [| b l Hl IH Hb]; cbn [insert_scored].
  - constructor; [constructor | constructor].
  - destruct (Qle_bool (s_score b) (s_score a)) eqn:E.
    + apply Qle_bool_iff in E.
      constructor; [constructor; assumption |].
      constructor; [exact E |].
      rewrite List.Forall_forall in *. intros x Hx. unfold score_ge in *.
      apply Qle_trans with (s_score b); [apply Hb, Hx | exact E].
    + apply Qle_bool_false_iff in E.
      constructor; [exact IH |].
      rewrite List.Forall_forall in *. intros x Hx.
      apply insert_scored_In in Hx as [-> | Hx]; [| apply Hb, Hx].
      unfold score_ge. apply Qlt_le_weak. exact E.
Qed.

(** X13: the sort of [buildPlan] returns a permutation of the scored foods
    in which no food is followed, anywhere later, by a food of a higher
    score. *)
Theorem sort_scored_sorted_perm (l : list Scored) :
  Permutation l (sort_scored l) /\ StronglySorted score_ge (sort_scored l).
Proof.
  unfold sort_scored. induction l as [| a l [IHp IHs]]; cbn [fold_right].
  - split; [apply Permutation_refl | constructor].
  - split.
    + apply Permutation_trans with (a :: fold_right insert_scored [] l);
        [apply perm_skip, IHp | apply insert_scored_perm].
    + apply insert_scored_sorted. exact IHs.
Qed.

(** The scored foods of one score, in their order *)
Definition with_score (q : Q) (l : list Scored) : list Scored :=
  List.filter (fun s => Qeq_bool (s_score s) q) l.

Lemma insert_scored_with_score q a l :
  with_score q (insert_scored a l) = with_score q (a :: l).
Proof.
  unfold with_score. induction l as [| b l IH]; cbn [insert_scored]; [reflexivity |].
  destruct (Qle_bool (s_score b) (s_score a)) eqn:E; [reflexivity |].
  apply Qle_bool_false_iff in E.
  cbn [List.filter] in *. rewrite IH.
  destruct (Qeq_bool (s_score a) q) eqn:Ea; [| reflexivity].
  destruct (Qeq_bool (s_score b) q) eqn:Eb; [| reflexivity].
  apply Qeq_bool_iff in Ea, Eb. lra.
Qed.

(** X14: the sort is stable: the foods of any one score come out in the
    order they had in the catalog. *)
Theorem sort_scored_stable (q : Q) (l : list Scored) :
  with_score q (sort_scored l) = with_score q l.
Proof.
  unfold sort_scored. induction l as [| a l IH]; cbn [fold_right]; [reflexivity |].
  rewrite insert_scored_with_score. unfold with_score in *. cbn [List.filter].
  rewrite IH. reflexivity.
Qed.

End FilterSortMore.


(** * Further properties of the meal packer *)

Section PackerMore.
Import JS Nutrition RuleEngine.
Local Open Scope Q_scope.

Variable targetCal : Q.
Variable mealType : string.
Variable dosha : string.

Local Abbreviation stop := (stop targetCal mealType).
Local Abbreviation accept := (accept targetCal mealType dosha).
Local Abbreviation item_of := (item_of targetCal mealType dosha).
Local Abbreviation pass1 := (pass1 targetCal mealType dosha).
Local Abbreviation pass2 := (pass2 targetCal mealType dosha).
Local Abbreviation pickFoodForMeal := (pickFoodForMeal targetCal mealType dosha).

(** A property that holds at the start and that every acceptance keeps
    holds when either loop ends, and for the result of the packer. *)
Lemma packer_loops_keep (I : Pick -> Prop) (scored : list Scored) :
  (forall st s, In s scored -> I st -> stop st = false ->
                used_key (s_f s) ∉ pick_used st -> I (accept st s)) ->
  forall st, I st -> I (pass1 scored st) /\ I (pass2 scored st).
Proof.
  induction scored as [| s rest IH]; intros Hacc st Hst; cbn [RuleEngine.pass1 RuleEngine.pass2];
    [split; exact Hst |].
  assert (Hrest : forall st', I st' -> I (pass1 rest st') /\ I (pass2 rest st')).
  { apply IH. intros st' s' Hs'. apply Hacc. right. exact Hs'. }
  destruct (stop st) eqn:Hs; [split; exact Hst |]. split.
  - apply Hrest.
    destruct (pass1_body_cases targetCal mealType dosha st s) as [E | (E & Hu & _)]; rewrite E.
    + exact Hst.
    + apply Hacc; [left; reflexivity | assumption ..].
  - destruct (bool_decide (used_key (s_f s) ∈ pick_used st)) eqn:Hu; [apply Hrest, Hst |].
    apply bool_decide_eq_false in Hu. cbv zeta.
    assert (Hnew : I (accept st s)) by (apply Hacc; [left; reflexivity | assumption ..]).
    destruct (early_stop _ _); [exact Hnew | apply Hrest, Hnew].
Qed.

Lemma packer_keeps (I : Pick -> Prop) (scored : list Scored) :
  (forall st s, In s scored -> I st -> stop st = false ->
                used_key (s_f s) ∉ pick_used st -> I (accept st s)) ->
  I pick_init -> I (pickFoodForMeal scored).
Proof.
  intros Hacc Hinit. unfold RuleEngine.pickFoodForMeal. cbv zeta.
  destruct (packer_loops_keep I scored Hacc pick_init Hinit) as [H1 _].
  destruct (needs_second_pass _ _); [| exact H1].
  apply (packer_loops_keep I scored Hacc). exact H1.
Qed.

(** *** No food twice in a slot *)

(** The key under which an item's food was marked used *)
Definition item_key (it : PickItem) : option string := used_key (p_f it).

Definition keys_inv (st : Pick) : Prop :=
  NoDup (map item_key (pick_items st))
  /\ forall k, k ∈ pick_used st <-> k ∈ map item_key (pick_items st).

Lemma accept_keys_inv st s :
  keys_inv st -> used_key (s_f s) ∉ pick_used st -> keys_inv (accept st s).
Proof.
  intros [Hnd Hused] Hfresh. unfold keys_inv.
  cbn [RuleEngine.accept pick_items pick_used]. rewrite map_app. cbn [map].
  change (item_key (item_of st s)) with (used_key (s_f s)). split.
  - apply NoDup_app. split; [exact Hnd |]. split; [| apply NoDup_singleton].
    intros k Hk Hk'. apply list_elem_of_singleton in Hk'. subst k.
    apply Hfresh, Hused, Hk.
  - intros k. rewrite elem_of_union, elem_of_singleton, elem_of_app, Hused.
    rewrite list_elem_of_singleton. intuition congruence.
Qed.

(** X15: no food is put twice into one slot: the keys [food_id || name] of
    the items that the packer returns are pairwise different. *)
Theorem packer_no_duplicate (scored : list Scored) :
  NoDup (map item_key (pick_items (pickFoodForMeal scored))).
Proof.
  apply (packer_keeps keys_inv scored).
  - intros st s _ Hst _ Hfresh. apply accept_keys_inv; assumption.
  - split; [constructor |]. intros k. cbn. rewrite elem_of_empty, elem_of_nil. reflexivity.
Qed.

(** *** What an item holds *)

(** The item was made from one of the scored foods, with the portion that
    [calculatePortionSize] gave at that moment. *)
Definition made_from (scored : list Scored) (it : PickItem) : Prop :=
  exists st s, In s scored /\ it = item_of st s.

Lemma packer_items_made (scored : list Scored) :
  Forall (made_from scored) (pick_items (pickFoodForMeal scored)).
Proof.
  apply (packer_keeps (fun st => Forall (made_from scored) (pick_items st)) scored).
  - intros st s Hs Hst _ _. cbn [RuleEngine.accept pick_items].
    apply Forall_app. split; [exact Hst |].
    constructor; [| constructor]. exists st, s. split; [exact Hs | reflexivity].
  - constructor.
Qed.

(** *** The running total *)

(** The calories that the loops add to [kcal] for an item:
    [Math.round((kPer100 * grams) / 100)] *)
Definition item_k (it : PickItem) : Z :=
  Math_round ((kPer100_of (p_f it) * inject_Z (p_grams it)) / 100).

Lemma sumZ_snoc l x : sumZ (l ++ [x]) = (sumZ l + x)%Z.
Proof. rewrite sumZ_app. cbn. lia. Qed.

(** X16: the running total [kcal] that the packer returns is the sum, over
    the items it returns, of the portion calories
    [Math.round((kPer100 * grams) / 100)], where [kPer100] is
    [calories_100g || calories_per_100g || 100] of the item's food and
    [grams] the item's grams. *)
Theorem packer_kcal_is_sum_of_portions (scored : list Scored) :
  pick_kcal (pickFoodForMeal scored) = sumZ (map item_k (pick_items (pickFoodForMeal scored))).
Proof.
  apply (packer_keeps (fun st => pick_kcal st = sumZ (map item_k (pick_items st))) scored).
  - intros st s _ Hst _ _. cbn [RuleEngine.accept pick_items pick_kcal].
    rewrite map_app. cbn [map]. rewrite sumZ_snoc, Hst. reflexivity.
  - reflexivity.
Qed.

Lemma sum_calories_sumZ (items : list PlanItem) :
  sum_calories items = sumZ (map (fun it => m_calories (i_macros it)) items).
Proof.
  unfold sum_calories.
  assert (H : forall acc, fold_left (fun sum it => (sum + m_calories (i_macros it))%Z) items acc
                          = (acc + sumZ (map (fun it => m_calories (i_macros it)) items))%Z).
  { induction items as [| it items IH]; intros acc; cbn [fold_left map sumZ fold_right].
    - lia.
    - rewrite IH. fold (sumZ (map (fun it => m_calories (i_macros it)) items)). lia. }
  rewrite H. lia.
Qed.

End PackerMore.


Section PackerYield.
Import JS Nutrition RuleEngine.
Local Open Scope Q_scope.

Variable targetCal : Q.
Variable mealType : string.
Variable dosha : string.

Local Abbreviation stop := (stop targetCal mealType).
Local Abbreviation accept := (accept targetCal mealType dosha).
Local Abbreviation pass1 := (pass1 targetCal mealType dosha).
Local Abbreviation pass2 := (pass2 targetCal mealType dosha).
Local Abbreviation pickFoodForMeal := (pickFoodForMeal targetCal mealType dosha).

(** The second loop only appends. *)
Lemma pass2_grows (scored : list Scored) : forall st,
  (length (pick_items st) <= length (pick_items (pass2 scored st)))%nat.
Proof.
  induction scored as [| s rest IH]; intros st; cbn [RuleEngine.pass2]; [lia |].
  destruct (stop st); [lia |].
  destruct (bool_decide _); [apply IH |]. cbv zeta.
  pose proof (accept_length targetCal mealType dosha st s) as Hacc.
  destruct (early_stop _ _); [lia |].
  pose proof (IH (accept st s)). lia.
Qed.

(** As long as no item was taken, nothing was counted or marked. *)
Definition untouched (st : Pick) : Prop :=
  pick_items st = [] -> pick_kcal st = 0%Z /\ pick_used st = ∅.

Lemma pass1_untouched (scored : list Scored) : untouched (pass1 scored pick_init).
Proof.
  apply (packer_loops_keep targetCal mealType dosha untouched scored).
  - intros st s _ _ _ _ Hnil. cbn [RuleEngine.accept pick_items] in Hnil.
    destruct (pick_items st); discriminate Hnil.
  - intros _. split; reflexivity.
Qed.

Lemma maxItems_pos : (0 < maxItems_of mealType)%nat.
Proof. unfold maxItems_of. destruct (String.eqb mealType "snack"); lia. Qed.

Lemma stop_fresh (st : Pick) :
  0 < targetCal -> pick_items st = [] -> pick_kcal st = 0%Z -> stop st = false.
Proof.
  intros Hpos Hnil Hk. unfold RuleEngine.stop. rewrite Hnil, Hk. cbn [length].
  apply orb_false_iff. split.
  - apply Nat.leb_gt. apply maxItems_pos.
  - apply Qle_bool_false_iff. change (inject_Z 0) with 0.
    apply mul64_positive; [exact Hpos | reflexivity].
Qed.

Lemma packer_takes_one (s : Scored) (rest : list Scored) :
  0 < targetCal -> pick_items (pickFoodForMeal (s :: rest)) <> [].
Proof.
  intros Hpos. unfold RuleEngine.pickFoodForMeal. cbv zeta.
  set (st1 := pass1 (s :: rest) pick_init).
  pose proof (pass1_untouched (s :: rest)) as Hun. fold st1 in Hun.
  destruct (needs_second_pass targetCal st1) eqn:Hneed.
  - destruct (pick_items st1) as [| it its] eqn:Hitems.
    + destruct (Hun Hitems) as [Hk Hu].
      cbn [RuleEngine.pass2]. rewrite (stop_fresh st1 Hpos Hitems Hk), Hu.
      rewrite bool_decide_eq_false_2 by apply not_elem_of_empty. cbv zeta.
      pose proof (accept_length targetCal mealType dosha st1 s) as Hlen.
      destruct (early_stop _ _); intros Hnil.
      * rewrite Hnil in Hlen. discriminate Hlen.
      * pose proof (pass2_grows rest (accept st1 s)) as Hg.
        rewrite Hnil, Hlen in Hg. cbn in Hg. lia.
    + intros Hnil. pose proof (pass2_grows (s :: rest) st1) as Hg.
      rewrite Hnil, Hitems in Hg. cbn in Hg. lia.
  - unfold needs_second_pass in Hneed. apply orb_false_iff in Hneed as [Hlen _].
    apply Nat.eqb_neq in Hlen. intros Hnil. rewrite Hnil in Hlen. contradiction.
Qed.

(** X17: with a positive calorie target the packer returns no item only for
    an empty candidate list: if the first pass takes nothing, the second
    takes the best-ranked candidate whatever its type and calories. *)
Theorem packer_yields (scored : list Scored) :
  0 < targetCal ->
  (pick_items (pickFoodForMeal scored) = [] <-> scored = []).
Proof.
  intros Hpos. split.
  - intros Hnil. destruct scored as [| s rest]; [reflexivity | exfalso].
    exact (packer_takes_one s rest Hpos Hnil).
  - intros ->. reflexivity.
Qed.

Lemma pick_within_cap (scored : list Scored) :
  (length (pick_items (pickFoodForMeal scored)) <= maxItems_of mealType)%nat.
Proof.
  unfold RuleEngine.pickFoodForMeal. cbv zeta.
  assert (H1 : within_cap mealType (pass1 scored pick_init)).
  { apply pass1_within_cap. unfold within_cap. cbn. lia. }
  destruct (needs_second_pass _ _); [apply pass2_within_cap |]; exact H1.
Qed.

(** *** What every item of the result holds *)

Lemma item_of_facts (st : Pick) (s : Scored) :
  let it := item_of targetCal mealType dosha st s in
  p_f it = s_f s
  /\ (50 <= p_grams it <= Math_round (base_of mealType * (15 # 10)))%Z
  /\ p_portion it = (string_of_Z (p_grams it) ++ "g")%string
  /\ p_macros it = calculateFoodMacros (p_f it) (inject_Z (p_grams it))
  /\ p_why it = explainChoice (p_f it) dosha (s_score s).
Proof.
  cbv zeta. cbn [RuleEngine.item_of p_f p_grams p_portion p_macros p_why].
  repeat split; try reflexivity;
    unfold grams_of, calculatePortionSize; pose proof (portion_cap_ge_50 mealType); lia.
Qed.

End PackerYield.

Lemma packer_yields_witness :
  (0 < 500)%Q
  /\ (pick_items (RuleEngine.pickFoodForMeal 500 "breakfast" "Pitta"
                    [RuleEngine.score_food (pitta_profile [] []) "Pitta" "winter" basmati_rice])
      = []
      <-> [RuleEngine.score_food (pitta_profile [] []) "Pitta" "winter" basmati_rice] = []).
Proof.
  split; [reflexivity |].
  apply (packer_yields 500 "breakfast" "Pitta"
           [RuleEngine.score_food (pitta_profile [] []) "Pitta" "winter" basmati_rice]).
  reflexivity.
Defined.


(** * Further properties of the plan assembler *)

Section PlanMore.
Import JS Nutrition RuleEngine.
Local Open Scope Q_scope.

(** *** The plan, slot by slot *)

(** The slot that the callback of [forEach] pushes for a meal type and its
    index *)
Definition built_meal (scored : list Scored) (mealCalories : list Z) (dosha : string)
    (mi : string * nat) : Meal :=
  let pick := pickFoodForMeal (inject_Z (nullish (mealCalories !! snd mi) 0%Z))
                (fst mi) dosha scored in
  let items := map plan_item (pick_items pick) in
  {| meal_type := fst mi; meal_items := items; meal_total_calories := sum_calories items;
     meal_explanations := List.filter nonempty (map i_why items) |}.

Lemma meal_step_built scored mealCalories dosha acc mi :
  meal_step scored mealCalories dosha acc mi
  = (fst acc ++ [built_meal scored mealCalories dosha mi],
     (snd acc + meal_total_calories (built_meal scored mealCalories dosha mi))%Z).
Proof. destruct acc, mi. reflexivity. Qed.

Lemma meal_loop_built scored mealCalories dosha (l : list (string * nat)) : forall acc,
  fst (fold_left (meal_step scored mealCalories dosha) l acc)
  = fst acc ++ map (built_meal scored mealCalories dosha) l.
Proof.
  induction l as [| mi l IH]; intros acc; cbn [fold_left map].
  - rewrite app_nil_r. reflexivity.
  - rewrite IH, meal_step_built. cbn [fst]. rewrite <- app_assoc. reflexivity.
Qed.

(** The values that [buildPlan] computes before its loop *)
Definition plan_dosha (a : BuildArgs) : string :=
  if truthyS (dosha_result (profile a)) then strOr (dosha_result (profile a))
  else inferDosha (profile a).

Definition plan_target (clk : Clock) (a : BuildArgs) : Q :=
  match targetCalories a with
  | Some t => t
  | None => inject_Z (calculateTargetCalories clk (profile a))
  end.

Definition plan_scored (clk : Clock) (a : BuildArgs) : list Scored :=
  sort_scored
    (map (score_food (profile a) (plan_dosha a) (getSeasonFromMonth (clock_month0 clk + 1)))
       (allowedFoods (profile a) (foods a))).

Definition plan_slate (a : BuildArgs) : list string :=
  mealTypes_of (nullish (plan_type a) "daily"%string).

Definition plan_shares (clk : Clock) (a : BuildArgs) : list Z :=
  distributeMealCalories (plan_target clk a) (length (plan_slate a)).

Lemma buildPlan_meals clk a :
  plan_meals (buildPlan clk a)
  = map (built_meal (plan_scored clk a) (plan_shares clk a) (plan_dosha a))
      (indexed (plan_slate a)).
Proof.
  unfold buildPlan. cbv zeta.
  match goal with |- context [fold_left (meal_step ?sc ?mc ?d) ?l ?acc] =>
    pose proof (meal_loop_built sc mc d l acc) as H;
    destruct (fold_left (meal_step sc mc d) l acc) as [meals total] end.
  cbn [fst plan_meals app] in *. exact H.
Qed.

Lemma buildPlan_target clk a : plan_target_calories (buildPlan clk a) = plan_target clk a.
Proof.
  unfold buildPlan. cbv zeta.
  match goal with |- context [fold_left ?f ?l ?acc] => destruct (fold_left f l acc) end.
  reflexivity.
Qed.

(** A property of every slot that the packer can build holds for every slot
    of the plan. *)
Lemma plan_meals_all (P : Meal -> Prop) clk a :
  (forall mi, In mi (indexed (plan_slate a)) ->
              P (built_meal (plan_scored clk a) (plan_shares clk a) (plan_dosha a) mi)) ->
  Forall P (plan_meals (buildPlan clk a)).
Proof.
  intros H. rewrite buildPlan_meals. apply List.Forall_forall.
  intros m Hm. apply in_map_iff in Hm as (mi & <- & Hmi). apply H, Hmi.
Qed.

(** *** Caps and portions *)

(** X18: every slot of a plan holds at most three items, a snack slot at
    most two. *)
Theorem plan_slot_caps (clk : Clock) (a : BuildArgs) :
  Forall (fun m => (length (meal_items m) <= 3)%nat
                   /\ (meal_type m = "snack"%string -> (length (meal_items m) <= 2)%nat))
    (plan_meals (buildPlan clk a)).
Proof.
  apply plan_meals_all. intros [mt idx] _.
  cbn [built_meal meal_items meal_type fst snd]. rewrite length_map.
  match goal with |- context [pickFoodForMeal ?t mt ?d ?sc] =>
    pose proof (pick_within_cap t mt d sc) as Hcap end.
  unfold maxItems_of in Hcap. split.
  - destruct (String.eqb mt "snack"); lia.
  - intros ->. cbn in Hcap. exact Hcap.
Qed.

Lemma portion_cap_le_225 (mealType : string) :
  (Math_round (base_of mealType * (15 # 10)) <= 225)%Z.
Proof.
  unfold base_of, baseSizes, lookup_key, nullish.
  repeat match goal with |- context [if ?b then _ else _] => destruct b end;
    vm_compute; discriminate.
Qed.

(** The first character of a rationale is a letter of its first part. *)
Lemma explainChoice_starts (f : Food) (dosha : string) (score : Q) :
  exists c rest, explainChoice f dosha score = String c rest.
Proof.
  unfold explainChoice. cbv zeta.
  destruct (test_balancing _); [| destruct (includes _ _)];
    destruct (nonempty _); destruct (truthyS _);
    do 2 eexists; cbn [app join String.append]; reflexivity.
Qed.

Lemma explainChoice_nonempty (f : Food) (dosha : string) (score : Q) :
  nonempty (explainChoice f dosha score) = true.
Proof.
  destruct (explainChoice_starts f dosha score) as (c & rest & ->). reflexivity.
Qed.

(** X19: every item of a plan weighs between 50 and 225 grams, its
    [portion] is that number followed by "g", and its rationale is not
    empty, so that the [explanations] of a slot are the rationales of its
    items, one for one. *)
Theorem plan_item_portions (clk : Clock) (a : BuildArgs) :
  Forall (fun m =>
            Forall (fun it => (50 <= i_grams it <= 225)%Z
                              /\ i_portion it = (string_of_Z (i_grams it) ++ "g")%string
                              /\ i_why it <> ""%string)
              (meal_items m)
            /\ meal_explanations m = map i_why (meal_items m))
    (plan_meals (buildPlan clk a)).
Proof.
  apply plan_meals_all. intros [mt idx] _.
  cbn [built_meal meal_items meal_explanations fst snd].
  match goal with |- context [pickFoodForMeal ?t mt ?d ?sc] =>
    pose proof (packer_items_made t mt d sc) as Hmade;
    set (items := pick_items (pickFoodForMeal t mt d sc)) in * end.
  assert (Hall : Forall (fun it => (50 <= i_grams it <= 225)%Z
                                   /\ i_portion it = (string_of_Z (i_grams it) ++ "g")%string
                                   /\ nonempty (i_why it) = true)
                   (map plan_item items)).
  { apply List.Forall_forall. intros it Hit.
    apply in_map_iff in Hit as (pit & <- & Hpit).
    rewrite List.Forall_forall in Hmade. destruct (Hmade pit Hpit) as (st & s & _ & ->).
    match goal with |- context [item_of ?t mt ?d st s] =>
      destruct (item_of_facts t mt d st s) as (_ & Hg & Hp & _ & Hw) end.
    cbn [plan_item i_grams i_portion i_why]. split; [| split].
    - pose proof (portion_cap_le_225 mt). lia.
    - exact Hp.
    - rewrite Hw. apply explainChoice_nonempty. }
  split.
  - revert Hall. apply List.Forall_impl. intros it (Hg & Hp & Hw).
    split; [exact Hg | split; [exact Hp |]]. intros E. rewrite E in Hw. discriminate Hw.
  - apply filter_all. intros w Hw. apply in_map_iff in Hw as (it & <- & Hit).
    rewrite List.Forall_forall in Hall. apply (Hall it Hit).
Qed.

End PlanMore.

Section PlanYield.
Import JS Nutrition RuleEngine.
Local Open Scope Q_scope.

Lemma sum_meal_totals_zero (meals : list Meal) :
  Forall (fun m => meal_total_calories m = 0%Z) meals -> sum_meal_totals meals = 0%Z.
Proof.
  unfold sum_meal_totals. induction 1 as [| m meals Hm _ IH]; cbn [map fold_right];
    [reflexivity | rewrite Hm, IH; reflexivity].
Qed.

(** X20: when no food passes the filter (an empty catalog included), the plan
    still has its slots, each with no item, no explanation and a total of
    0, and the plan's [total_calories] is 0. *)
Theorem empty_candidates_empty_plan (clk : Clock) (a : BuildArgs) :
  allowedFoods (profile a) (foods a) = [] ->
  map meal_type (plan_meals (buildPlan clk a)) = plan_slate a
  /\ Forall (fun m => meal_items m = [] /\ meal_explanations m = []
                      /\ meal_total_calories m = 0%Z)
       (plan_meals (buildPlan clk a))
  /\ plan_total_calories (buildPlan clk a) = 0%Z.
Proof.
  intros Hnone.
  destruct (buildPlan_spec clk a) as (Hslate & Htotal & _). cbv zeta in Hslate, Htotal.
  assert (Hall : Forall (fun m => meal_items m = [] /\ meal_explanations m = []
                                  /\ meal_total_calories m = 0%Z)
                   (plan_meals (buildPlan clk a))).
  { apply plan_meals_all. intros mi _. unfold plan_scored. rewrite Hnone.
    repeat split. }
  split; [exact Hslate | split; [exact Hall |]].
  rewrite Htotal. apply sum_meal_totals_zero.
  revert Hall. apply List.Forall_impl. intros m (_ & _ & H). exact H.
Qed.

Lemma empty_candidates_empty_plan_witness :
  allowedFoods (profile disliking_request) (foods disliking_request) = []
  /\ plan_total_calories (buildPlan january disliking_request) = 0%Z.
Proof.
  split; [reflexivity |].
  apply (empty_candidates_empty_plan january disliking_request). reflexivity.
Defined.

(** Every share of a target of at least 5 is positive: the smallest
    percentage of the three tables is 10%. *)
Lemma shares_positive (total : Q) (mealCount : nat) (c : Z) :
  5 <= total -> In c (distributeMealCalories total mealCount) -> (0 < c)%Z.
Proof.
  intros Ht Hc. unfold distributeMealCalories in Hc.
  apply in_map_iff in Hc as (pct & <- & Hpct).
  apply Math_round_pos_iff.
  assert (Hmin : 1 # 10 <= pct).
  { destruct mealCount as [| [| [| [| [| [| n]]]]]]; cbn in Hpct;
      repeat (destruct Hpct as [<- | Hpct]; [discriminate |]); destruct Hpct. }
  nra.
Qed.

Lemma indexed_In {A} (l : list A) (x : A) (i : nat) :
  In (x, i) (indexed l) -> (i < length l)%nat.
Proof.
  unfold indexed. intros H. apply in_combine_r in H. apply in_seq in H. lia.
Qed.

(** X21: with a calorie target of at least 5 and at least one food passing
    the filter, no slot of the plan is empty. *)
Theorem every_slot_filled (clk : Clock) (a : BuildArgs) :
  5 <= plan_target_calories (buildPlan clk a) ->
  allowedFoods (profile a) (foods a) <> [] ->
  Forall (fun m => meal_items m <> []) (plan_meals (buildPlan clk a)).
Proof.
  rewrite buildPlan_target. intros Ht Hsome.
  apply plan_meals_all. intros [mt idx] Hmi.
  cbn [built_meal meal_items fst snd].
  assert (Hshare : (0 < nullish (plan_shares clk a !! idx) 0)%Z).
  { apply indexed_In in Hmi.
    destruct (lookup_lt_is_Some_2 (plan_shares clk a) idx) as [c Hc].
    - unfold plan_shares. rewrite distribute_length. unfold plan_slate, mealTypes_of in *.
      destruct (String.eqb _ "daily"); cbn in *; exact Hmi.
    - rewrite Hc. cbn [nullish].
      apply (shares_positive (plan_target clk a) (length (plan_slate a)) c Ht).
      apply list_elem_of_In, (list_elem_of_lookup_2 _ idx), Hc. }
  assert (Hscored : exists s rest, plan_scored clk a = s :: rest).
  { destruct (plan_scored clk a) as [| s rest] eqn:E; [exfalso | eauto].
    destruct (allowedFoods (profile a) (foods a)) as [| f fs] eqn:Ef; [contradiction |].
    assert (Hin : In (score_food (profile a) (plan_dosha a)
                        (getSeasonFromMonth (clock_month0 clk + 1)) f) (plan_scored clk a)).
    { unfold plan_scored. rewrite Ef. apply sort_scored_In. left. reflexivity. }
    rewrite E in Hin. destruct Hin. }
  destruct Hscored as (s & rest & ->).
  intros Hnil. apply map_eq_nil in Hnil. revert Hnil.
  apply packer_takes_one. rewrite Zlt_Qlt in Hshare. exact Hshare.
Qed.

Lemma every_slot_filled_witness :
  5 <= plan_target_calories (buildPlan january neutral_request)
  /\ Forall (fun m => meal_items m <> []) (plan_meals (buildPlan january neutral_request)).
Proof.
  split; [vm_compute; discriminate |].
  apply (every_slot_filled january neutral_request).
  - vm_compute. discriminate.
  - discriminate.
Defined.

End PlanYield.

Section PlanProvenance.
Import JS Nutrition RuleEngine.
Local Open Scope Q_scope.

(** The item is a portion of the food [f]. *)
Definition portion_of (f : Food) (it : PlanItem) : Prop :=
  i_name it = name f
  /\ i_food_id it = orS (orS (food_id f) (id f)) (if truthyS (_id f) then _id f else None)
  /\ i_macros it = calculateFoodMacros f (inject_Z (i_grams it))
  /\ (50 <= i_grams it)%Z.

Lemma plan_items_from_allowed (clk : Clock) (a : BuildArgs) :
  Forall (fun m => Forall (fun it => exists f, In f (nullish (foods a) [])
                                               /\ allowed (profile a) f = true
                                               /\ portion_of f it)
                     (meal_items m))
    (plan_meals (buildPlan clk a)).
Proof.
  apply plan_meals_all. intros [mt idx] _. cbn [built_meal meal_items fst snd].
  match goal with |- context [pickFoodForMeal ?t mt ?d ?sc] =>
    pose proof (packer_items_made t mt d sc) as Hmade;
    set (items := pick_items (pickFoodForMeal t mt d sc)) in * end.
  apply List.Forall_forall. intros it Hit.
  apply in_map_iff in Hit as (pit & <- & Hpit).
  rewrite List.Forall_forall in Hmade. destruct (Hmade pit Hpit) as (st & s & Hs & ->).
  unfold plan_scored in Hs.
  apply sort_scored_In, in_map_iff in Hs as (f & <- & Hf).
  apply filter_In in Hf as [Hcat Hall].
  exists f. split; [exact Hcat | split; [exact Hall |]].
  match goal with |- context [item_of ?t mt ?d st ?s] =>
    destruct (item_of_facts t mt d st s) as (_ & Hg & _) end.
  unfold portion_of. cbn [plan_item i_name i_food_id i_macros i_grams] in *.
  repeat split. lia.
Qed.

(** X22: every item of a plan is a portion of a food of the catalog that
    passed the filter: it carries that food's name and identifier, it weighs
    at least 50 grams, its macros are [calculateFoodMacros] of that food at
    the item's grams, and the food is not salty when the profile lists
    "hypertension" and has no identifier starting with "i" or "I" when it
    lists "diabetes". *)
Theorem plan_items_provenance (clk : Clock) (a : BuildArgs) :
  Forall (fun m =>
            Forall (fun it =>
                      exists f, In f (nullish (foods a) [])
                                /\ portion_of f it
                                /\ (In "hypertension"%string
                                      (nullish (medical_conditions (profile a)) []) ->
                                    includes (strOr (tastes f)) "salty" = false)
                                /\ (In "diabetes"%string
                                      (nullish (medical_conditions (profile a)) []) ->
                                    startsWith (toLowerCase (strOr (food_id f))) "i" = false))
              (meal_items m))
    (plan_meals (buildPlan clk a)).
Proof.
  pose proof (plan_items_from_allowed clk a) as H. revert H.
  apply List.Forall_impl. intros m. apply List.Forall_impl.
  intros it (f & Hcat & Hall & Hp). exists f. split; [exact Hcat | split; [exact Hp |]].
  unfold allowed in Hall. rewrite !andb_true_iff, !negb_true_iff in Hall.
  destruct Hall as [_ Hcontra]. unfold isContra in Hcontra. cbv zeta in Hcontra.
  split.
  - intros Hh.
    assert (E : arr_includes (nullish (medical_conditions (profile a)) []) "hypertension" = true).
    { apply bool_decide_eq_true, list_elem_of_In, Hh. }
    rewrite E in Hcontra.
    destruct (arr_includes _ "diabetes" && _); [discriminate |].
    destruct (includes (strOr (tastes f)) "salty"); [discriminate | reflexivity].
  - intros Hd.
    assert (E : arr_includes (nullish (medical_conditions (profile a)) []) "diabetes" = true).
    { apply bool_decide_eq_true, list_elem_of_In, Hd. }
    rewrite E in Hcontra.
    destruct (startsWith (toLowerCase (strOr (food_id f))) "i"); [discriminate | reflexivity].
Qed.

(** X23: the [total_calories] of a slot is the calories that
    [calculateMealMacros] computes for the foods of the slot at their
    grams. *)
Theorem slot_total_is_meal_macros (targetCal : Q) (mealType dosha : string)
    (scored : list Scored) :
  let picked := pick_items (pickFoodForMeal targetCal mealType dosha scored) in
  sum_calories (map plan_item picked)
  = m_calories (calculateMealMacros
                  (map (fun it => {| e_food := p_f it; e_grams := Some (inject_Z (p_grams it)) |})
                     picked)).
Proof.
  cbv zeta. unfold calculateMealMacros.
  rewrite fold_add_entry, sum_calories_sumZ, !map_map. cbn [m_calories].
  rewrite Z.add_0_l. f_equal. apply map_ext_in. intros it Hit.
  pose proof (packer_items_made targetCal mealType dosha scored) as Hmade.
  rewrite List.Forall_forall in Hmade. destruct (Hmade it Hit) as (st & s & _ & ->).
  reflexivity.
Qed.

Lemma sum_calories_nonneg (items : list PlanItem) :
  Forall (fun it => (0 <= m_calories (i_macros it))%Z) items -> (0 <= sum_calories items)%Z.
Proof.
  rewrite sum_calories_sumZ. induction 1 as [| it items Hit _ IH]; cbn [map sumZ fold_right];
    [lia |].
  fold (sumZ (map (fun it => m_calories (i_macros it)) items)). lia.
Qed.

Lemma sum_meal_totals_nonneg (meals : list Meal) :
  Forall (fun m => (0 <= meal_total_calories m)%Z) meals -> (0 <= sum_meal_totals meals)%Z.
Proof.
  unfold sum_meal_totals. induction 1 as [| m meals Hm _ IH]; cbn [map fold_right]; lia.
Qed.

(** X24: when no food of the catalog has negative calories, no slot total
    and no plan total is negative. *)
Theorem plan_totals_nonneg (clk : Clock) (a : BuildArgs) :
  (forall f q, In f (nullish (foods a) []) -> calories_100g f = Some q -> 0 <= q) ->
  Forall (fun m => (0 <= meal_total_calories m)%Z) (plan_meals (buildPlan clk a))
  /\ (0 <= plan_total_calories (buildPlan clk a))%Z.
Proof.
  intros Hcal.
  assert (Hitems : Forall (fun m => Forall (fun it => (0 <= m_calories (i_macros it))%Z)
                                      (meal_items m))
                     (plan_meals (buildPlan clk a))).
  { pose proof (plan_items_from_allowed clk a) as H. revert H.
    apply List.Forall_impl. intros m. apply List.Forall_impl.
    intros it (f & Hcat & _ & _ & _ & Hm & Hg).
    rewrite Hm. unfold calculateFoodMacros. cbn [m_calories].
    apply Math_round_nonneg. apply Qmult_le_0_compat.
    - apply numOr_nonneg; [intros q Hq; exact (Hcal f q Hcat Hq) | apply Qle_refl].
    - apply Qle_shift_div_l; [reflexivity |].
      rewrite Zle_Qle in Hg. change (inject_Z 50) with 50 in Hg. lra. }
  assert (Hmeals : Forall (fun m => (0 <= meal_total_calories m)%Z)
                     (plan_meals (buildPlan clk a))).
  { rewrite buildPlan_meals in *. apply List.Forall_forall. intros m Hm.
    rewrite List.Forall_forall in Hitems. specialize (Hitems m Hm).
    apply in_map_iff in Hm as (mi & <- & _).
    cbn [built_meal meal_total_calories meal_items] in *.
    apply sum_calories_nonneg. exact Hitems. }
  split; [exact Hmeals |].
  destruct (buildPlan_spec clk a) as (_ & Htotal & _). cbv zeta in Htotal.
  rewrite Htotal. apply sum_meal_totals_nonneg. exact Hmeals.
Qed.

Lemma plan_totals_nonneg_witness :
  (forall f q, In f (nullish (foods neutral_request) []) -> calories_100g f = Some q -> 0 <= q)
  /\ (0 <= plan_total_calories (buildPlan january neutral_request))%Z.
Proof.
  assert (H : forall f q, In f (nullish (foods neutral_request) []) ->
                          calories_100g f = Some q -> 0 <= q).
  { intros f q [<- | []] Hq. injection Hq as <-. discriminate. }
  split; [exact H |].
  apply (plan_totals_nonneg january neutral_request H).
Defined.

End PlanProvenance.

Section PackerPreferred.
Import JS Nutrition RuleEngine.
Local Open Scope Q_scope.

Variable targetCal : Q.
Variable mealType : string.
Variable dosha : string.

(** The food's category is on the allow-list of the meal type (or the meal
    type has no list). *)
Definition of_preferred_type (it : PickItem) : Prop :=
  preferred mealType = [] \/ In (foodType_of (p_f it)) (preferred mealType).

Lemma pass1_body_preferred (st : Pick) (s : Scored) :
  Forall of_preferred_type (pick_items st) ->
  Forall of_preferred_type (pick_items (pass1_body targetCal mealType dosha st s)).
Proof.
  intros Hst. unfold pass1_body. cbv zeta.
  destruct (bool_decide _); [exact Hst |].
  destruct (negb (length (preferred mealType) =? 0)%nat
            && negb (arr_includes (preferred mealType) (foodType_of (s_f s)))) eqn:Hp;
    [exact Hst |].
  destruct (under_ceiling _ _ _ _); [| exact Hst].
  cbn [accept pick_items]. apply Forall_app. split; [exact Hst |].
  constructor; [| constructor]. unfold of_preferred_type. cbn [item_of p_f].
  apply andb_false_iff in Hp as [Hp | Hp]; apply negb_false_iff in Hp.
  - left. apply Nat.eqb_eq in Hp. destruct (preferred mealType); [reflexivity | discriminate].
  - right. apply bool_decide_eq_true in Hp. apply list_elem_of_In. exact Hp.
Qed.

Lemma pass1_preferred (scored : list Scored) : forall st,
  Forall of_preferred_type (pick_items st) ->
  Forall of_preferred_type (pick_items (pass1 targetCal mealType dosha scored st)).
Proof.
  induction scored as [| s rest IH]; intros st Hst; cbn [pass1]; [exact Hst |].
  destruct (stop _ _ _); [exact Hst |]. apply IH, pass1_body_preferred, Hst.
Qed.

(** X25: when the first pass fills the slot well enough (at least one item
    and 70% of the target), every item of the slot is of a category on the
    meal type's allow-list; foods of other categories enter only through
    the second pass. *)
Theorem first_pass_only_preferred (scored : list Scored) :
  needs_second_pass targetCal (pass1 targetCal mealType dosha scored pick_init) = false ->
  Forall of_preferred_type (pick_items (pickFoodForMeal targetCal mealType dosha scored)).
Proof.
  intros Hneed. unfold pickFoodForMeal. cbv zeta. rewrite Hneed.
  apply pass1_preferred. constructor.
Qed.

End PackerPreferred.

Lemma first_pass_only_preferred_witness :
  RuleEngine.needs_second_pass 250
    (RuleEngine.pass1 250 "breakfast" "Pitta"
       [RuleEngine.score_food (pitta_profile [] []) "Pitta" "winter" banana]
       RuleEngine.pick_init) = false
  /\ Forall (of_preferred_type "breakfast")
       (pick_items (RuleEngine.pickFoodForMeal 250 "breakfast" "Pitta"
                      [RuleEngine.score_food (pitta_profile [] []) "Pitta" "winter" banana])).
Proof.
  split; [vm_compute; reflexivity |].
  apply (first_pass_only_preferred 250 "breakfast" "Pitta"
           [RuleEngine.score_food (pitta_profile [] []) "Pitta" "winter" banana]).
  vm_compute. reflexivity.
Defined.
